(** * gee-chatbot: the request handler of [app/gee_client.py] and the
      routes of [app/main.py]

    The program is a thin layer over the Earth Engine client library: it
    normalises a loosely typed parameter map, builds lazily evaluated
    image descriptions, asks the service for thumbnail URLs, a histogram and
    an optional animated thumbnail, and assembles one result dictionary.

    The development follows the code:
    - [Py]      the Python values that flow through the handler, with the
                builtins the code applies to them ([bool], [int], [str],
                [len], [isinstance], subscripting);
    - [ee]      the objects of the client library, as the descriptions the
                library builds on the client side;
    - [Section Handler]  the functions of [gee_client.py] and [main.py] in a
                state and exception monad over a library session, every
                call into the library being recorded and answered by the
                outside world;
    - the properties of the specification, each as one theorem. *)

From Stdlib Require Import ZArith String Ascii PrimFloat SpecFloat FloatOps DecimalString.
From stdpp Require Import base option list gmap strings.

Set Warnings "-inexact-float,-register-all".
Local Open Scope string_scope.
Local Open Scope list_scope.
Local Open Scope Z_scope.

(** ** Python values *)

Module Py.

(** A value of the request body or of a reply of the service: what
    [json.loads] produces, plus tuples, which [get_roi_from_params] also
    accepts.  A [str] holds its UTF-8 bytes; a [dict] keeps its items in
    insertion order. *)
Inductive val :=
| None_
| Bool (b : bool)
| Int (z : Z)
| Float (f : float)
| Str (s : string)
| List (l : list val)
| Tuple (l : list val)
| Dict (items : list (string * val)).

(** An exception, by its class and [str(e)].  The exceptions of the model
    are instances of subclasses of [Exception], those an [except Exception]
    clause catches. *)
Record exn := Exn { exn_class : string; exn_str : string }.

(** The outcome of evaluating an expression: a value, or a raised
    exception. *)
Inductive result (A : Type) :=
| Ok (a : A)
| Raise (e : exn).
Arguments Ok {A} a.
Arguments Raise {A} e.

(** [bool(v)]: the truth value of [v]. *)
Definition bool_ (v : val) : bool :=
  match v with
  | None_ => false
  | Bool b => b
  | Int z => negb (z =? 0)
  | Float f => negb (PrimFloat.eqb f 0%float)
  | Str s => negb (String.length s =? 0)%nat
  | List l | Tuple l => negb (length l =? 0)%nat
  | Dict items => negb (length items =? 0)%nat
  end.

(** [isinstance(v, (list, tuple))]. *)
Definition is_list_or_tuple (v : val) : bool :=
  match v with
  | List _ | Tuple _ => true
  | _ => false
  end.

(** [type(v).__name__]. *)
Definition type_name (v : val) : string :=
  match v with
  | None_ => "NoneType"
  | Bool _ => "bool"
  | Int _ => "int"
  | Float _ => "float"
  | Str _ => "str"
  | List _ => "list"
  | Tuple _ => "tuple"
  | Dict _ => "dict"
  end.

(** [len(v)]; numbers and [None] have no length. *)
Definition len (v : val) : result Z :=
  match v with
  | Str s => Ok (Z.of_nat (String.length s))
  | List l | Tuple l => Ok (Z.of_nat (length l))
  | Dict items => Ok (Z.of_nat (length items))
  | _ => Raise (Exn "TypeError" ("object of type '" +:+ type_name v +:+ "' has no len()"))
  end.

(** [int(f)] for a float: truncation towards zero; not-a-number and the
    infinities are refused. *)
Definition int_of_float (f : float) : result Z :=
  match Prim2SF f with
  | S754_nan => Raise (Exn "ValueError" "cannot convert float NaN to integer")
  | S754_infinity _ => Raise (Exn "OverflowError" "cannot convert float infinity to integer")
  | S754_zero _ => Ok 0
  | S754_finite s m e =>
      let a := if 0 <=? e then Z.shiftl (Z.pos m) e else Z.shiftr (Z.pos m) (- e) in
      Ok (if s then - a else a)
  end.

(** [str(z)] for an int: its decimal digits. *)
Definition str_of_int (z : Z) : string := NilZero.string_of_int (Z.to_int z).

(** [d[key]] for a dict [d]: the first item under [key] of the insertion
    ordered items (keys are unique in a dict). *)
Fixpoint assoc (key : string) (items : list (string * val)) : option val :=
  match items with
  | [] => None
  | (k, v) :: rest => if String.eqb k key then Some v else assoc key rest
  end.

(** [v[key]] with a string key. *)
Definition getitem (v : val) (key : string) : result val :=
  match v with
  | Dict items =>
      match assoc key items with
      | Some x => Ok x
      | None => Raise (Exn "KeyError" ("'" +:+ key +:+ "'"))
      end
  | List _ => Raise (Exn "TypeError" "list indices must be integers or slices, not str")
  | Tuple _ => Raise (Exn "TypeError" "tuple indices must be integers or slices, not str")
  | Str _ => Raise (Exn "TypeError" "string indices must be integers, not 'str'")
  | _ => Raise (Exn "TypeError" ("'" +:+ type_name v +:+ "' object is not subscriptable"))
  end.

End Py.

(** ** The client library

    An object of the [ee] library is a description, built on the client
    side, of a computation the service runs when a result is asked for.
    Each constructor below is one constructor or method of the library, as
    the code calls it. *)

Module ee.

(** A number handed to the library: a Python [int], the element a function
    mapped over an [ee.List] is applied to, or [ee.Number(n)]. *)
Inductive Number :=
| Lit (z : Z)
| Element
| Number_ (n : Number).

(** [ee.Date.fromYMD(year, month, day)] and [date.advance(delta, unit)]. *)
Inductive Date :=
| fromYMD (year : Number) (month day : Z)
| advance (d : Date) (delta : Z) (unit : string).

(** [date.millis()]. *)
Inductive Millis :=
| millis (d : Date).

(** [ee.Geometry.Rectangle(coords, proj, geodesic)] and
    [geometry.bounds()]. *)
Inductive Geometry :=
| Rectangle (coords proj geodesic : Py.val)
| bounds (g : Geometry).

(** [ee.Filter.lt(name, value)]. *)
Inductive Filter :=
| lt (name : string) (value : Z).

(** [ee.Reducer.frequencyHistogram()]. *)
Inductive Reducer :=
| frequencyHistogram.

(** The keyword arguments of [image.visualize]. *)
Record VisParams := {
  vis_bands : option (list string);
  vis_min : option Z;
  vis_max : option Z;
  vis_palette : option (list string);
}.

Inductive ImageCollection :=
| Dataset (id : string)                                   (* ee.ImageCollection('id') *)
| filterBounds (c : ImageCollection) (g : Geometry)
| filterDate (c : ImageCollection) (start end_ : Date)
| select (c : ImageCollection) (band : string)
| filter (c : ImageCollection) (f : Filter)
| FromList (l : List_)                                   (* ee.ImageCollection(list) *)
with Image :=
| mode (c : ImageCollection)
| median (c : ImageCollection)
| clip (i : Image) (g : Geometry)
| unmask (i : Image) (value : Z)
| set (i : Image) (key : string) (value : Millis)
| visualize (i : Image) (p : VisParams)
| neq (i j : Image)
| selfMask (i : Image)
with List_ :=
| sequence (start end_ : Z)                               (* ee.List.sequence(start, end) *)
| map (l : List_) (body : Image).                         (* list.map(f), [body] being f(Element) *)

(** [image.reduceRegion(reducer=, geometry=, scale=, maxPixels=)]. *)
Inductive Dictionary :=
| reduceRegion (i : Image) (reducer : Reducer) (geometry : Geometry)
    (scale : Z) (maxPixels : float).

(** [service_account.Credentials.from_service_account_info(info, scopes=)]. *)
Inductive Credentials :=
| from_service_account_info (info : Py.val) (scopes : list string).

(** Any object of the library. *)
Inductive obj :=
| ONumber (n : Number)
| ODate (d : Date)
| OMillis (m : Millis)
| OGeometry (g : Geometry)
| OFilter (f : Filter)
| OReducer (r : Reducer)
| OCollection (c : ImageCollection)
| OImage (i : Image)
| OList (l : List_)
| ODictionary (d : Dictionary)
| OCredentials (c : Credentials).

(** A call into the library.  [New o] is the constructor or method call
    that returns the description [o]; the others are the calls that go to
    the service. *)
Inductive call :=
| New (o : obj)
| Initialize (c : Credentials)                                  (* ee.Initialize(credentials) *)
| GetInfo (o : obj)                                             (* o.getInfo() *)
| GetThumbURL (i : Image) (params : Py.val)                     (* image.getThumbURL(params) *)
| GetVideoThumbURL (c : ImageCollection) (params : Py.val).     (* coll.getVideoThumbURL(params) *)

(** The session of the library in this process: the flag
    [ee.data._initialized], and the calls made so far, oldest first. *)
Record Session := {
  initialized : bool;
  log : list call;
}.

End ee.

(** ** Exceptions and the library session as a monad

    A computation takes the session and returns a value or a raised
    exception, with the session it leaves behind. *)

Definition M (A : Type) : Type := ee.Session → Py.result A * ee.Session.

Definition ret {A} (a : A) : M A := λ s, (Py.Ok a, s).

Definition raise {A} (e : Py.exn) : M A := λ s, (Py.Raise e, s).

Definition bind {A B} (m : M A) (k : A → M B) : M B :=
  λ s, match m s with
       | (Py.Ok a, s') => k a s'
       | (Py.Raise e, s') => (Py.Raise e, s')
       end.

(** An expression that touches no session. *)
Definition lift {A} (r : Py.result A) : M A := λ s, (r, s).

(** [try: body  except Exception as e: handler]. *)
Definition try_except {A} (body : M A) (handler : Py.exn → M A) : M A :=
  λ s, match body s with
       | (Py.Ok a, s') => (Py.Ok a, s')
       | (Py.Raise e, s') => handler e s'
       end.

Declare Scope py_scope.
Delimit Scope py_scope with py.
Notation "x <- m ;; k" := (bind m (λ x, k))
  (at level 100, m at next level, right associativity) : py_scope.
Notation "m ;; k" := (bind m (λ _, k))
  (at level 100, right associativity) : py_scope.
Local Open Scope py_scope.

(** ** The outside world

    What the handler does not decide: the process environment, the parsers
    of the Python runtime, and, for every call into the library, whether it
    raises and what the service replies.  Both may depend on everything the
    session has seen so far. *)
Record World := {
  environ : gmap string string;                   (* os.environ *)
  int_of_str : string → Py.result Z;              (* int(s) for a str s *)
  json_loads : string → Py.result Py.val;         (* json.loads(s) *)
  raises : ee.Session → ee.call → option Py.exn;  (* the exception of a call, if any *)
  reply : ee.Session → ee.call → Py.val;          (* the data a request returns *)
}.

(** [int(v)]. *)
Definition int_ (W : World) (v : Py.val) : Py.result Z :=
  match v with
  | Py.Int z => Py.Ok z
  | Py.Bool b => Py.Ok (if b then 1 else 0)
  | Py.Float f => Py.int_of_float f
  | Py.Str s => int_of_str W s
  | _ => Py.Raise (Py.Exn "TypeError"
           ("int() argument must be a string, a bytes-like object or a real number, not '"
            +:+ Py.type_name v +:+ "'"))
  end.

(** [params.get(key, default)]. *)
Definition get (params : gmap string Py.val) (key : string) (default : Py.val) : Py.val :=
  match params !! key with
  | Some v => v
  | None => default
  end.

(** An HTTP response of the routes: [JSONResponse(content, status_code)]. *)
Record JSONResponse := { content : Py.val; status_code : Z }.

(** ** Constants of [gee_client.py] *)

Definition YEARS : list Z := [2020; 2021; 2022; 2023; 2024].

Definition CLASS_PALETTE : list string :=
  ["419bdf"; "397d49"; "88b053"; "7a87c6"; "e49635";
   "dfc35a"; "c4281b"; "a59b8f"; "b39fe1"].

Definition CHANGE_COLOR : string := "ff00ff".

Definition RECT_BOUNDS : Py.val :=
  Py.List [Py.Float 54.16; Py.Float 24.29; Py.Float 54.74; Py.Float 24.61].

(** [visualize(min=0, max=8, palette=CLASS_PALETTE)]. *)
Definition dw_vis : ee.VisParams :=
  {| ee.vis_bands := None; ee.vis_min := Some 0; ee.vis_max := Some 8;
     ee.vis_palette := Some CLASS_PALETTE |}.

(** [visualize(bands=['B4', 'B3', 'B2'], min=0, max=3000)]. *)
Definition s2_vis : ee.VisParams :=
  {| ee.vis_bands := Some ["B4"; "B3"; "B2"]; ee.vis_min := Some 0;
     ee.vis_max := Some 3000; ee.vis_palette := None |}.

(** [visualize(palette=[CHANGE_COLOR])]. *)
Definition change_vis_params : ee.VisParams :=
  {| ee.vis_bands := None; ee.vis_min := None; ee.vis_max := None;
     ee.vis_palette := Some [CHANGE_COLOR] |}.

(** ** The handler *)

Section Handler.

Variable W : World.

(** *** Calls into the library *)

Definition record (c : ee.call) (s : ee.Session) : ee.Session :=
  {| ee.initialized := ee.initialized s; ee.log := ee.log s ++ [c] |}.

(** A call that returns nothing of interest: it is recorded, and raises
    when the world says so. *)
Definition invoke (c : ee.call) : M unit :=
  λ s, match raises W s c with
       | Some e => (Py.Raise e, record c s)
       | None => (Py.Ok tt, record c s)
       end.

(** A constructor or method of the library: when it does not raise, the
    caller holds the description [a]. *)
Definition new {A} (inj : A → ee.obj) (a : A) : M A :=
  invoke (ee.New (inj a)) ;; ret a.

(** A call whose value is data sent back by the service. *)
Definition request (c : ee.call) : M Py.val :=
  λ s, match raises W s c with
       | Some e => (Py.Raise e, record c s)
       | None => (Py.Ok (reply W s c), record c s)
       end.

(** [ee.Initialize(credentials)]: on return the session is initialised. *)
Definition Initialize (credentials : ee.Credentials) : M unit :=
  λ s, match raises W s (ee.Initialize credentials) with
       | Some e => (Py.Raise e, record (ee.Initialize credentials) s)
       | None =>
           (Py.Ok tt, {| ee.initialized := true;
                         ee.log := ee.log s ++ [ee.Initialize credentials] |})
       end.

(** Reading [ee.data._initialized]. *)
Definition data_initialized : M bool := λ s, (Py.Ok (ee.initialized s), s).

(** *** [gee_client.py] *)

Definition initialize_ee_from_env : M unit :=
  already <- data_initialized ;;
  if already then ret tt else
  let key_json := environ W !! "GEE_SERVICE_ACCOUNT_KEY" in
  match key_json with
  | None | Some "" =>
      raise (Py.Exn "RuntimeError" "GEE_SERVICE_ACCOUNT_KEY not set in environment.")
  | Some key_json =>
      key_dict <- lift (json_loads W key_json) ;;
      credentials <- new ee.OCredentials
        (ee.from_service_account_info key_dict
           ["https://www.googleapis.com/auth/earthengine"]) ;;
      Initialize credentials
  end.

Definition yearly_dw_label (year : ee.Number) (roi : ee.Geometry) : M ee.Image :=
  start <- new ee.ODate (ee.fromYMD year 1 1) ;;
  end_ <- new ee.ODate (ee.advance start 1 "year") ;;
  c <- new ee.OCollection (ee.Dataset "GOOGLE/DYNAMICWORLD/V1") ;;
  c <- new ee.OCollection (ee.filterBounds c roi) ;;
  c <- new ee.OCollection (ee.filterDate c start end_) ;;
  coll <- new ee.OCollection (ee.select c "label") ;;
  i <- new ee.OImage (ee.mode coll) ;;
  i <- new ee.OImage (ee.clip i roi) ;;
  i <- new ee.OImage (ee.unmask i 0) ;;
  t <- new ee.OMillis (ee.millis start) ;;
  img <- new ee.OImage (ee.set i "system:time_start" t) ;;
  ret img.

Definition yearly_s2_rgb (year : ee.Number) (roi : ee.Geometry) : M ee.Image :=
  start <- new ee.ODate (ee.fromYMD year 1 1) ;;
  c <- new ee.OCollection (ee.Dataset "COPERNICUS/S2_HARMONIZED") ;;
  c <- new ee.OCollection (ee.filterBounds c roi) ;;
  end_ <- new ee.ODate (ee.advance start 1 "year") ;;
  c <- new ee.OCollection (ee.filterDate c start end_) ;;
  f <- new ee.OFilter (ee.lt "CLOUDY_PIXEL_PERCENTAGE" 30) ;;
  coll <- new ee.OCollection (ee.filter c f) ;;
  m <- new ee.OImage (ee.median coll) ;;
  median <- new ee.OImage (ee.clip m roi) ;;
  vis <- new ee.OImage (ee.visualize median s2_vis) ;;
  ret vis.

(** The function [map_year] local to [build_vis_collection_range]. *)
Definition map_year (roi : ee.Geometry) (y : ee.Number) : M ee.Image :=
  y <- new ee.ONumber (ee.Number_ y) ;;
  label <- yearly_dw_label y roi ;;
  img <- new ee.OImage (ee.visualize label dw_vis) ;;
  d <- new ee.ODate (ee.fromYMD y 1 1) ;;
  t <- new ee.OMillis (ee.millis d) ;;
  new ee.OImage (ee.set img "system:time_start" t).

(** [years_list.map(map_year)] makes the library apply [map_year] once, to
    the element variable, to obtain the description of the mapped
    function. *)
Definition build_vis_collection_range (y_start y_end : Z) (roi : ee.Geometry)
  : M ee.ImageCollection :=
  years_list <- new ee.OList (ee.sequence y_start y_end) ;;
  body <- map_year roi ee.Element ;;
  mapped <- new ee.OList (ee.map years_list body) ;;
  new ee.OCollection (ee.FromList mapped).

Definition make_change_layer (yA yB : ee.Number) (roi : ee.Geometry) : M ee.Image :=
  imgA <- yearly_dw_label yA roi ;;
  imgB <- yearly_dw_label yB roi ;;
  n <- new ee.OImage (ee.neq imgA imgB) ;;
  m <- new ee.OImage (ee.selfMask n) ;;
  ch <- new ee.OImage (ee.clip m roi) ;;
  vis <- new ee.OImage (ee.visualize ch change_vis_params) ;;
  ret vis.

(** The condition [bounds and isinstance(bounds, (list, tuple)) and
    len(bounds) == 4]: [and] evaluates its right operand only when the left
    one is true. *)
Definition bounds_usable (bounds : Py.val) : Py.result bool :=
  if Py.bool_ bounds then
    if Py.is_list_or_tuple bounds then
      match Py.len bounds with
      | Py.Ok n => Py.Ok (n =? 4)
      | Py.Raise e => Py.Raise e
      end
    else Py.Ok false
  else Py.Ok false.

Definition get_roi_from_params (params : gmap string Py.val) : M ee.Geometry :=
  let bounds := get params "bounds" Py.None_ in
  usable <- lift (bounds_usable bounds) ;;
  if usable : bool then
    new ee.OGeometry (ee.Rectangle bounds Py.None_ (Py.Bool false))
  else
    new ee.OGeometry (ee.Rectangle RECT_BOUNDS Py.None_ (Py.Bool false)).

Definition image_thumbnail_url (image : ee.Image) (region : ee.Geometry) (dims : Z)
  : M Py.val :=
  b <- new ee.OGeometry (ee.bounds region) ;;
  info <- request (ee.GetInfo (ee.OGeometry b)) ;;
  coordinates <- lift (Py.getitem info "coordinates") ;;
  let params := Py.Dict [("region", coordinates); ("dimensions", Py.Int dims)] in
  url <- request (ee.GetThumbURL image params) ;;
  ret url.

Definition collection_video_thumb_url (coll : ee.ImageCollection)
    (region : ee.Geometry) (fps dims : Z) : M Py.val :=
  b <- new ee.OGeometry (ee.bounds region) ;;
  info <- request (ee.GetInfo (ee.OGeometry b)) ;;
  coordinates <- lift (Py.getitem info "coordinates") ;;
  let params := Py.Dict [("region", coordinates); ("framesPerSecond", Py.Int fps);
                         ("dimensions", Py.Int dims)] in
  url <- request (ee.GetVideoThumbURL coll params) ;;
  ret url.

(** *** [run_gee_task]

    The body of [run_gee_task] is given in the order of the source, one
    definition per block of statements. *)

(** The local variables after the parameters have been read. *)
Record Locals := {
  yearA : Z;
  yearB : Z;
  roi : ee.Geometry;
  thumb_dims : Z;
  produce_video : bool;
  video_fps : Z;
}.

(** [yearA, yearB = yearB, yearA] when [yearA > yearB]. *)
Definition ordered (yearA yearB : Z) : Z * Z :=
  if yearA >? yearB then (yearB, yearA) else (yearA, yearB).

(** From the call of [initialize_ee_from_env] to the reading of
    [video_fps]. *)
Definition read_params (params : gmap string Py.val) : M Locals :=
  initialize_ee_from_env ;;
  yearA <- lift (int_ W (get params "yearA" (Py.Int (List.nth 0 YEARS 0)))) ;;
  yearB <- lift (int_ W (get params "yearB" (Py.Int (List.last YEARS 0)))) ;;
  let '(yearA, yearB) := ordered yearA yearB in
  roi <- get_roi_from_params params ;;
  thumb_dims <- lift (int_ W (get params "thumb_dims" (Py.Int 768))) ;;
  let produce_video := Py.bool_ (get params "video" (Py.Bool false)) in
  video_fps <- lift (int_ W (get params "video_fps" (Py.Int 1))) ;;
  ret {| yearA := yearA; yearB := yearB; roi := roi; thumb_dims := thumb_dims;
         produce_video := produce_video; video_fps := video_fps |}.

(** The five visualised images and the dictionary [urls] of their
    thumbnails. *)
Definition thumbnail_urls (l : Locals) : M Py.val :=
  dw_A <- yearly_dw_label (ee.Lit (yearA l)) (roi l) ;;
  dw_vis_A <- new ee.OImage (ee.visualize dw_A dw_vis) ;;
  dw_B <- yearly_dw_label (ee.Lit (yearB l)) (roi l) ;;
  dw_vis_B <- new ee.OImage (ee.visualize dw_B dw_vis) ;;
  s2_vis_A <- yearly_s2_rgb (ee.Lit (yearA l)) (roi l) ;;
  s2_vis_B <- yearly_s2_rgb (ee.Lit (yearB l)) (roi l) ;;
  change_vis <- make_change_layer (ee.Lit (yearA l)) (ee.Lit (yearB l)) (roi l) ;;
  dw_A_thumb <- image_thumbnail_url dw_vis_A (roi l) (thumb_dims l) ;;
  dw_B_thumb <- image_thumbnail_url dw_vis_B (roi l) (thumb_dims l) ;;
  s2_A_thumb <- image_thumbnail_url s2_vis_A (roi l) (thumb_dims l) ;;
  s2_B_thumb <- image_thumbnail_url s2_vis_B (roi l) (thumb_dims l) ;;
  change_thumb <- image_thumbnail_url change_vis (roi l) (thumb_dims l) ;;
  ret (Py.Dict [("dw_A_thumb", dw_A_thumb); ("dw_B_thumb", dw_B_thumb);
                ("s2_A_thumb", s2_A_thumb); ("s2_B_thumb", s2_B_thumb);
                ("change_thumb", change_thumb)]).

(** The body of the first [try]: the histogram of the labels of [yearA]. *)
Definition histogram_request (l : Locals) : M Py.val :=
  label <- yearly_dw_label (ee.Lit (yearA l)) (roi l) ;;
  reducer <- new ee.OReducer ee.frequencyHistogram ;;
  d <- new ee.ODictionary (ee.reduceRegion label reducer (roi l) 30 1e9) ;;
  request (ee.GetInfo (ee.ODictionary d)).

(** [try: freqA = ...  except Exception as e: freqA = {"error": str(e)}]. *)
Definition histogram (l : Locals) : M Py.val :=
  try_except (histogram_request l)
    (λ e, ret (Py.Dict [("error", Py.Str (Py.exn_str e))])).

(** [video_url = None], then the [if produce_video:] statement: the
    collection is built before the [try], the URL is asked for inside it. *)
Definition video (l : Locals) : M Py.val :=
  if produce_video l then
    vis_coll <- build_vis_collection_range (yearA l) (yearB l) (roi l) ;;
    try_except
      (collection_video_thumb_url vis_coll (roi l) (video_fps l) (thumb_dims l))
      (λ _, ret Py.None_)
  else ret Py.None_.

Definition summary_text (l : Locals) : string :=
  "Dynamic World for years " +:+ Py.str_of_int (yearA l) +:+ " â†’ "
  +:+ Py.str_of_int (yearB l) +:+ " over the Abu Dhabi city block.".

(** The dictionary returned. *)
Definition result_dict (l : Locals) (urls freqA video_url : Py.val) : Py.val :=
  Py.Dict [("summary", Py.Str (summary_text l));
           ("yearA", Py.Int (yearA l));
           ("yearB", Py.Int (yearB l));
           ("urls", urls);
           ("histogram_yearA", freqA);
           ("video_url", video_url)].

Definition run_gee_task (params : gmap string Py.val) : M Py.val :=
  l <- read_params params ;;
  urls <- thumbnail_urls l ;;
  freqA <- histogram l ;;
  video_url <- video l ;;
  ret (result_dict l urls freqA video_url).

(** *** [main.py] *)

Definition startup_event : M unit := initialize_ee_from_env.

Definition root : JSONResponse :=
  {| content := Py.Dict [("message", Py.Str "GEE Dynamic World API is running")];
     status_code := 200 |}.

(** The route [POST /chat]. *)
Definition chat (data : gmap string Py.val) : M JSONResponse :=
  try_except
    (result <- run_gee_task data ;;
     ret {| content := result; status_code := 200 |})
    (λ e, ret {| content := Py.Dict [("error", Py.Str (Py.exn_str e))];
                 status_code := 500 |}).

End Handler.

(** ** What the calls of a run refer to *)

(** The regions a geometry is derived from. *)
Fixpoint geometry_regions (g : ee.Geometry) : list ee.Geometry :=
  match g with
  | ee.Rectangle _ _ _ => [g]
  | ee.bounds g' => geometry_regions g'
  end.

(** The regions a collection, an image or a list is computed over. *)
Fixpoint collection_regions (c : ee.ImageCollection) : list ee.Geometry :=
  match c with
  | ee.Dataset _ => []
  | ee.filterBounds c g => collection_regions c ++ geometry_regions g
  | ee.filterDate c _ _ | ee.select c _ | ee.filter c _ => collection_regions c
  | ee.FromList l => list_regions l
  end
with image_regions (i : ee.Image) : list ee.Geometry :=
  match i with
  | ee.mode c | ee.median c => collection_regions c
  | ee.clip i g => image_regions i ++ geometry_regions g
  | ee.unmask i _ | ee.set i _ _ | ee.visualize i _ | ee.selfMask i => image_regions i
  | ee.neq i j => image_regions i ++ image_regions j
  end
with list_regions (l : ee.List_) : list ee.Geometry :=
  match l with
  | ee.sequence _ _ => []
  | ee.map l body => list_regions l ++ image_regions body
  end.

Definition obj_regions (o : ee.obj) : list ee.Geometry :=
  match o with
  | ee.OGeometry g => geometry_regions g
  | ee.OCollection c => collection_regions c
  | ee.OImage i => image_regions i
  | ee.OList l => list_regions l
  | ee.ODictionary (ee.reduceRegion i _ g _ _) => image_regions i ++ geometry_regions g
  | ee.ONumber _ | ee.ODate _ | ee.OMillis _ | ee.OFilter _ | ee.OReducer _
  | ee.OCredentials _ => []
  end.

Definition call_regions (c : ee.call) : list ee.Geometry :=
  match c with
  | ee.New o | ee.GetInfo o => obj_regions o
  | ee.GetThumbURL i _ => image_regions i
  | ee.GetVideoThumbURL c _ => collection_regions c
  | ee.Initialize _ => []
  end.

(** The call that resolves a region: [ee.Geometry.Rectangle(...)]. *)
Definition is_region_resolution (c : ee.call) : bool :=
  match c with
  | ee.New (ee.OGeometry (ee.Rectangle _ _ _)) => true
  | _ => false
  end.

(** The calls that belong to the animated output: the list of years, the
    number wrapping the mapped element, the collection made from the
    mapped list, and the request for the animated thumbnail. *)
Definition is_animation_call (c : ee.call) : bool :=
  match c with
  | ee.New (ee.OList _) | ee.New (ee.ONumber _)
  | ee.New (ee.OCollection (ee.FromList _)) | ee.GetVideoThumbURL _ _ => true
  | _ => false
  end.

(** The calls of [initialize_ee_from_env]. *)
Definition is_setup_call (c : ee.call) : bool :=
  match c with
  | ee.New (ee.OCredentials _) | ee.Initialize _ => true
  | _ => false
  end.

(** The default region: [ee.Geometry.Rectangle(RECT_BOUNDS, None, False)]. *)
Definition default_roi : ee.Geometry :=
  ee.Rectangle RECT_BOUNDS Py.None_ (Py.Bool false).

(** The region a parameter map selects: its ["bounds"] when the condition
    of [get_roi_from_params] holds, the default box otherwise. *)
Definition selected_roi (params : gmap string Py.val) : ee.Geometry :=
  let bounds := get params "bounds" Py.None_ in
  match bounds_usable bounds with
  | Py.Ok true => ee.Rectangle bounds Py.None_ (Py.Bool false)
  | _ => default_roi
  end.

(** A number of the request body, as [json.loads] yields it. *)
Definition is_number (v : Py.val) : bool :=
  match v with
  | Py.Int _ | Py.Float _ => true
  | _ => false
  end.

(** A well-formed bounding box: an array of four numbers. *)
Definition well_formed_bounds (v : Py.val) : bool :=
  match v with
  | Py.List [w; s; e; n] => is_number w && is_number s && is_number e && is_number n
  | _ => false
  end.

(** The exception of [initialize_ee_from_env] for a missing key. *)
Definition missing_key_error : Py.exn :=
  Py.Exn "RuntimeError" "GEE_SERVICE_ACCOUNT_KEY not set in environment.".

(** [bool(params.get("video", False))]. *)
Definition video_flag (params : gmap string Py.val) : bool :=
  Py.bool_ (get params "video" (Py.Bool false)).

(** A malformed one, in the sense of the condition of
    [get_roi_from_params]: falsy, not a list or tuple, or not of length 4. *)
Definition malformed_bounds (v : Py.val) : Prop :=
  Py.bool_ v = false ∨ Py.is_list_or_tuple v = false ∨ Py.len v ≠ Py.Ok 4.

(** ** A judgement on computations

    [spec P Q m]: from any session, the calls [m] makes all satisfy [P],
    they are appended to the log, and a value [m] returns satisfies [Q]. *)

Definition spec {A} (P : ee.call → Prop) (Q : A → Prop) (m : M A) : Prop :=
  ∀ s, ∃ cs, ee.log (m s).2 = ee.log s ++ cs ∧ Forall P cs ∧
             ∀ a, (m s).1 = Py.Ok a → Q a.

(** The value a request returns is a reply of the service to that call. *)
Definition replied (W : World) (c : ee.call) (v : Py.val) : Prop :=
  ∃ s, raises W s c = None ∧ v = reply W s c.

(** The ['region'] entry of the parameters of a thumbnail request comes
    from the coordinates the service gave for the bounds of [roi]. *)
Definition region_param_of (W : World) (roi : ee.Geometry) (params : Py.val) : Prop :=
  ∃ info coordinates,
    replied W (ee.GetInfo (ee.OGeometry (ee.bounds roi))) info ∧
    Py.getitem info "coordinates" = Py.Ok coordinates ∧
    Py.getitem params "region" = Py.Ok coordinates.

(** A call made downstream of the resolution of the region [roi], in a run
    whose video flag is [video]. *)
Record downstream (W : World) (roi : ee.Geometry) (video : bool) (c : ee.call) : Prop := {
  same_region : Forall (eq roi) (call_regions c);
  no_resolution : is_region_resolution c = false;
  no_setup : is_setup_call c = false;
  region_param :
    match c with
    | ee.GetThumbURL _ params | ee.GetVideoThumbURL _ params => region_param_of W roi params
    | _ => True
    end;
  animation_wanted : is_animation_call c = true → video = true;
}.

(** A value the service returned for a thumbnail request. *)
Definition is_thumbnail_reply (W : World) (url : Py.val) : Prop :=
  ∃ image params, replied W (ee.GetThumbURL image params) url.

(** The dictionary [urls]: under each of its five keys, what the service
    returned for the thumbnail. *)
Definition five_urls (W : World) (urls : Py.val) : Prop :=
  ∃ dw_A dw_B s2_A s2_B change,
    urls = Py.Dict [("dw_A_thumb", dw_A); ("dw_B_thumb", dw_B);
                    ("s2_A_thumb", s2_A); ("s2_B_thumb", s2_B);
                    ("change_thumb", change)] ∧
    Forall (is_thumbnail_reply W) [dw_A; dw_B; s2_A; s2_B; change].

(** What [read_params] returns, in terms of the parameter map. *)
Record locals_of (W : World) (params : gmap string Py.val) (l : Locals) : Prop := {
  years_read :
    ∃ a b, int_ W (get params "yearA" (Py.Int 2020)) = Py.Ok a ∧
           int_ W (get params "yearB" (Py.Int 2024)) = Py.Ok b ∧
           (yearA l, yearB l) = ordered a b;
  roi_selected : roi l = selected_roi params;
  thumb_dims_read : int_ W (get params "thumb_dims" (Py.Int 768)) = Py.Ok (thumb_dims l);
  flag_read : produce_video l = Py.bool_ (get params "video" (Py.Bool false));
  video_fps_read : int_ W (get params "video_fps" (Py.Int 1)) = Py.Ok (video_fps l);
}.


(** The number of times a list of calls resolves a region. *)
Definition resolutions (cs : list ee.call) : nat :=
  length (List.filter is_region_resolution cs).

(** The run of [run_gee_task] refers to no region but [g], and a run that
    returns has resolved [g]. *)
Definition run_uses_region (W : World) (params : gmap string Py.val)
    (s : ee.Session) (g : ee.Geometry) : Prop :=
  ∃ cs, ee.log (run_gee_task W params s).2 = ee.log s ++ cs ∧
        Forall (λ c, Forall (eq g) (call_regions c)) cs ∧
        ∀ r, (run_gee_task W params s).1 = Py.Ok r → ee.New (ee.OGeometry g) ∈ cs.

(** [returns Q m]: from any session, [m] returns a value that satisfies
    [Q]. *)
Definition returns {A} (Q : A → Prop) (m : M A) : Prop :=
  ∀ s, ∃ a s', m s = (Py.Ok a, s') ∧ Q a.

(** A world in which the credentials are configured, no call raises, and
    the service describes the bounds of a geometry with its coordinates. *)
Record cooperative (W : World) : Prop := {
  key_configured :
    ∃ key_json key_dict,
      environ W !! "GEE_SERVICE_ACCOUNT_KEY" = Some key_json ∧
      key_json ≠ "" ∧ json_loads W key_json = Py.Ok key_dict;
  nothing_raises : ∀ s c, raises W s c = None;
  bounds_have_coordinates :
    ∀ s g, ∃ coordinates,
      Py.getitem (reply W s (ee.GetInfo (ee.OGeometry (ee.bounds g)))) "coordinates"
        = Py.Ok coordinates;
}.

(** ** What a run builds and asks for *)

(** The image [yearly_dw_label(year, roi)] describes: the mode of the
    labels of the calendar year, clipped to the region, unmasked to class
    0 and stamped with the first day of the year. *)
Definition dw_label_image (year : ee.Number) (region : ee.Geometry) : ee.Image :=
  let start := ee.fromYMD year 1 1 in
  let coll :=
    ee.select
      (ee.filterDate
         (ee.filterBounds (ee.Dataset "GOOGLE/DYNAMICWORLD/V1") region)
         start (ee.advance start 1 "year"))
      "label" in
  ee.set (ee.unmask (ee.clip (ee.mode coll) region) 0)
    "system:time_start" (ee.millis start).

(** The image [yearly_s2_rgb(year, roi)] describes. *)
Definition s2_rgb_image (year : ee.Number) (region : ee.Geometry) : ee.Image :=
  let start := ee.fromYMD year 1 1 in
  let coll :=
    ee.filter
      (ee.filterDate
         (ee.filterBounds (ee.Dataset "COPERNICUS/S2_HARMONIZED") region)
         start (ee.advance start 1 "year"))
      (ee.lt "CLOUDY_PIXEL_PERCENTAGE" 30) in
  ee.visualize (ee.clip (ee.median coll) region) s2_vis.

(** The image [make_change_layer(yA, yB, roi)] describes. *)
Definition change_image (yA yB : ee.Number) (region : ee.Geometry) : ee.Image :=
  ee.visualize
    (ee.clip
       (ee.selfMask (ee.neq (dw_label_image yA region) (dw_label_image yB region)))
       region)
    change_vis_params.

(** The frame [map_year(y)] describes. *)
Definition frame_image (region : ee.Geometry) (y : ee.Number) : ee.Image :=
  let y := ee.Number_ y in
  ee.set (ee.visualize (dw_label_image y region) dw_vis)
    "system:time_start" (ee.millis (ee.fromYMD y 1 1)).

(** The collection [build_vis_collection_range(y_start, y_end, roi)]
    describes. *)
Definition vis_collection (y_start y_end : Z) (region : ee.Geometry)
  : ee.ImageCollection :=
  ee.FromList (ee.map (ee.sequence y_start y_end) (frame_image region ee.Element)).

(** The five images of which [run_gee_task] asks a thumbnail, in the order
    of the keys of [urls]. *)
Definition thumbnail_images (l : Locals) : list ee.Image :=
  [ee.visualize (dw_label_image (ee.Lit (yearA l)) (roi l)) dw_vis;
   ee.visualize (dw_label_image (ee.Lit (yearB l)) (roi l)) dw_vis;
   s2_rgb_image (ee.Lit (yearA l)) (roi l);
   s2_rgb_image (ee.Lit (yearB l)) (roi l);
   change_image (ee.Lit (yearA l)) (ee.Lit (yearB l)) (roi l)].

(** The dictionary of which the histogram is asked. *)
Definition histogram_dictionary (l : Locals) : ee.Dictionary :=
  ee.reduceRegion (dw_label_image (ee.Lit (yearA l)) (roi l))
    ee.frequencyHistogram (roi l) 30 1e9.

(** Coordinates the service returned for the bounds of [region]. *)
Definition coordinates_of_bounds (W : World) (region : ee.Geometry)
    (coordinates : Py.val) : Prop :=
  ∃ info, replied W (ee.GetInfo (ee.OGeometry (ee.bounds region))) info ∧
          Py.getitem info "coordinates" = Py.Ok coordinates.

(** [url] is what the service returned for the thumbnail of [image] over
    the bounds of [region] at dimension [dims]. *)
Definition is_thumbnail_of (W : World) (region : ee.Geometry) (dims : Z)
    (image : ee.Image) (url : Py.val) : Prop :=
  ∃ coordinates,
    coordinates_of_bounds W region coordinates ∧
    replied W
      (ee.GetThumbURL image
         (Py.Dict [("region", coordinates); ("dimensions", Py.Int dims)]))
      url.

(** [url] is what the service returned for the animated thumbnail of
    [coll] over the bounds of [region] at [fps] frames per second and
    dimension [dims]. *)
Definition is_video_thumbnail_of (W : World) (region : ee.Geometry) (fps dims : Z)
    (coll : ee.ImageCollection) (url : Py.val) : Prop :=
  ∃ coordinates,
    coordinates_of_bounds W region coordinates ∧
    replied W
      (ee.GetVideoThumbURL coll
         (Py.Dict [("region", coordinates); ("framesPerSecond", Py.Int fps);
                   ("dimensions", Py.Int dims)]))
      url.

(** The calls a run with local variables [l] may make: constructions on
    the client side and the initialisation, and, as requests to the
    service, the bounds of the region, the histogram, a thumbnail of one of
    the five images, and, with the video flag set, the animated thumbnail
    of the frames. *)
Definition as_requested (W : World) (l : Locals) (c : ee.call) : Prop :=
  match c with
  | ee.New _ | ee.Initialize _ => True
  | ee.GetInfo o =>
      o = ee.OGeometry (ee.bounds (roi l)) ∨
      o = ee.ODictionary (histogram_dictionary l)
  | ee.GetThumbURL image params =>
      image ∈ thumbnail_images l ∧
      ∃ coordinates,
        coordinates_of_bounds W (roi l) coordinates ∧
        params = Py.Dict [("region", coordinates); ("dimensions", Py.Int (thumb_dims l))]
  | ee.GetVideoThumbURL coll params =>
      produce_video l = true ∧
      coll = vis_collection (yearA l) (yearB l) (roi l) ∧
      ∃ coordinates,
        coordinates_of_bounds W (roi l) coordinates ∧
        params = Py.Dict [("region", coordinates);
                          ("framesPerSecond", Py.Int (video_fps l));
                          ("dimensions", Py.Int (thumb_dims l))]
  end.

(** The values of [urls], each the thumbnail of its image. *)
Definition urls_of (W : World) (l : Locals) (urls : Py.val) : Prop :=
  ∃ us, urls = Py.Dict (zip ["dw_A_thumb"; "dw_B_thumb"; "s2_A_thumb"; "s2_B_thumb";
                             "change_thumb"] us) ∧
        Forall2 (is_thumbnail_of W (roi l) (thumb_dims l)) (thumbnail_images l) us.

(** The value of [freqA]: the reply to the histogram request, or the
    placeholder of an exception. *)
Definition histogram_of (W : World) (l : Locals) (freqA : Py.val) : Prop :=
  replied W (ee.GetInfo (ee.ODictionary (histogram_dictionary l))) freqA ∨
  ∃ e, freqA = Py.Dict [("error", Py.Str (Py.exn_str e))].

(** The value of [video_url]: [None], or with the video flag set the
    animated thumbnail of the frames of the years [yearA] to [yearB]. *)
Definition video_url_of (W : World) (l : Locals) (video_url : Py.val) : Prop :=
  video_url = Py.None_ ∨
  (produce_video l = true ∧
   is_video_thumbnail_of W (roi l) (video_fps l) (thumb_dims l)
     (vis_collection (yearA l) (yearB l) (roi l)) video_url).

(** The request with the two years exchanged. *)
Definition swap_years (a b : Z) (params : gmap string Py.val) : gmap string Py.val :=
  <["yearA" := Py.Int b]> (<["yearB" := Py.Int a]> params).

(** ** Sample worlds and requests

    A world in which the credentials are configured and the service
    answers every call, and variants in which one step fails; they are the
    concrete inputs of the examples below. *)

Definition sample_coordinates : Py.val :=
  Py.List [Py.List [Py.List [Py.Float 54.16; Py.Float 24.29];
                    Py.List [Py.Float 54.74; Py.Float 24.29];
                    Py.List [Py.Float 54.74; Py.Float 24.61];
                    Py.List [Py.Float 54.16; Py.Float 24.61];
                    Py.List [Py.Float 54.16; Py.Float 24.29]]].

Definition sample_reply (c : ee.call) : Py.val :=
  match c with
  | ee.GetInfo (ee.OGeometry _) =>
      Py.Dict [("type", Py.Str "Polygon"); ("coordinates", sample_coordinates)]
  | ee.GetInfo (ee.ODictionary _) =>
      Py.Dict [("label", Py.Dict [("0", Py.Int 1200); ("6", Py.Int 5300); ("7", Py.Int 900)])]
  | ee.GetThumbURL _ _ => Py.Str "https://earthengine.googleapis.com/v1/thumbnails/t:getPixels"
  | ee.GetVideoThumbURL _ _ =>
      Py.Str "https://earthengine.googleapis.com/v1/videoThumbnails/v:getPixels"
  | _ => Py.None_
  end.

Definition sample_environ : gmap string string :=
  {[ "GEE_SERVICE_ACCOUNT_KEY" := "{}" ]}.

(** The value of a string of decimal digits. *)
Fixpoint digits_value (s : string) (acc : Z) : option Z :=
  match s with
  | "" => Some acc
  | String c rest =>
      let n := Z.of_nat (nat_of_ascii c) in
      if (48 <=? n) && (n <=? 57) then digits_value rest (10 * acc + (n - 48))
      else None
  end.

(** The parser of the sample worlds: decimal digits after an optional
    minus sign. *)
Definition sample_int_of_str (s : string) : Py.result Z :=
  let invalid :=
    Py.Raise (Py.Exn "ValueError"
                ("invalid literal for int() with base 10: '" +:+ s +:+ "'")) in
  match s with
  | "" => invalid
  | String "-"%char (String _ _ as rest) =>
      match digits_value rest 0 with
      | Some z => Py.Ok (- z)
      | None => invalid
      end
  | _ =>
      match digits_value s 0 with
      | Some z => Py.Ok z
      | None => invalid
      end
  end.

(** Every call succeeds. *)
Definition good_world : World :=
  {| environ := sample_environ;
     int_of_str := sample_int_of_str;
     json_loads := λ _, Py.Ok (Py.Dict []);
     raises := λ _ _, None;
     reply := λ _, sample_reply |}.

Definition service_error : Py.exn := Py.Exn "EEException" "Service unavailable.".

Definition is_histogram_call (c : ee.call) : bool :=
  match c with
  | ee.GetInfo (ee.ODictionary _) => true
  | _ => false
  end.


Definition is_video_url_call (c : ee.call) : bool :=
  match c with
  | ee.GetVideoThumbURL _ _ => true
  | _ => false
  end.

(** The calls picked out by [failing] raise; every other call succeeds. *)
Definition world_failing (failing : ee.call → bool) : World :=
  {| environ := sample_environ;
     int_of_str := int_of_str good_world;
     json_loads := json_loads good_world;
     raises := λ _ c, if failing c then Some service_error else None;
     reply := λ _, sample_reply |}.

(** No credentials in the environment. *)
Definition world_without_key : World :=
  {| environ := ∅;
     int_of_str := int_of_str good_world;
     json_loads := json_loads good_world;
     raises := λ _ _, None;
     reply := λ _, sample_reply |}.

(** The service describes a geometry without its coordinates. *)
Definition world_without_coordinates : World :=
  {| environ := sample_environ;
     int_of_str := sample_int_of_str;
     json_loads := λ _, Py.Ok (Py.Dict []);
     raises := λ _ _, None;
     reply := λ _ _, Py.Dict [("type", Py.Str "Polygon")] |}.

(** The key in the environment is not a JSON document. *)
Definition world_with_bad_key : World :=
  {| environ := {[ "GEE_SERVICE_ACCOUNT_KEY" := "not json" ]};
     int_of_str := sample_int_of_str;
     json_loads := λ _, Py.Raise (Py.Exn "JSONDecodeError"
                                    "Expecting value: line 1 column 1 (char 0)");
     raises := λ _ _, None;
     reply := λ _, sample_reply |}.

Definition fresh : ee.Session := {| ee.initialized := false; ee.log := [] |}.

Definition years_2024_2020 : gmap string Py.val :=
  {[ "yearA" := Py.Int 2024; "yearB" := Py.Int 2020 ]}.

Definition years_loosely_typed : gmap string Py.val :=
  {[ "yearA" := Py.Str "2024"; "yearB" := Py.Float 2020.9 ]}.

Definition with_video : gmap string Py.val :=
  {[ "yearA" := Py.Int 2020; "yearB" := Py.Int 2022; "video" := Py.Bool true ]}.

Definition sample_bounds : Py.val :=
  Py.List [Py.Float 55.1; Py.Float 25.0; Py.Float 55.4; Py.Int 26].

Definition with_bounds : gmap string Py.val :=
  {[ "bounds" := sample_bounds ]}.

Definition three_numbers : Py.val := Py.List [Py.Int 1; Py.Int 2; Py.Int 3].

Definition with_three_numbers : gmap string Py.val :=
  {[ "yearA" := Py.Int 2021; "bounds" := three_numbers ]}.

(** The local variables of [run_gee_task] for [with_video]. *)
Definition sample_locals : Locals :=
  {| yearA := 2020; yearB := 2022; roi := default_roi; thumb_dims := 768;
     produce_video := true; video_fps := 1 |}.

(** The dictionary [urls] in the sample worlds. *)
Definition sample_urls : Py.val :=
  let url := Py.Str "https://earthengine.googleapis.com/v1/thumbnails/t:getPixels" in
  Py.Dict [("dw_A_thumb", url); ("dw_B_thumb", url); ("s2_A_thumb", url);
           ("s2_B_thumb", url); ("change_thumb", url)].

Definition four_strings : Py.val :=
  Py.Tuple [Py.Str "w"; Py.Str "s"; Py.Str "e"; Py.Str "n"].

Definition with_four_strings : gmap string Py.val :=
  {[ "bounds" := four_strings ]}.

Definition year_is_null : gmap string Py.val :=
  {[ "yearA" := Py.None_; "yearB" := Py.Int 2022 ]}.

(** The local variables of [run_gee_task] for [years_2024_2020]. *)
Definition sample_locals_without_video : Locals :=
  {| yearA := 2020; yearB := 2024; roi := default_roi; thumb_dims := 768;
     produce_video := false; video_fps := 1 |}.


(** What [int] raises for [None]. *)
Definition null_year_error : Py.exn :=
  Py.Exn "TypeError"
    "int() argument must be a string, a bytes-like object or a real number, not 'NoneType'".

(** What subscripting a dictionary without ['coordinates'] raises. *)
Definition no_coordinates_error : Py.exn := Py.Exn "KeyError" "'coordinates'".

(** What the parser of [world_with_bad_key] raises. *)
Definition bad_key_error : Py.exn :=
  Py.Exn "JSONDecodeError" "Expecting value: line 1 column 1 (char 0)".

(** A session that has been initialised. *)
Definition ready : ee.Session := {| ee.initialized := true; ee.log := [] |}.

(** What [run_gee_task] returns for [years_2024_2020] when every call
    succeeds. *)
Definition sample_result : Py.val :=
  Eval vm_compute in
    match (run_gee_task good_world years_2024_2020 fresh).1 with
    | Py.Ok r => r
    | Py.Raise _ => Py.None_
    end.

(** What [run_gee_task] returns for [with_video] when every call
    succeeds. *)
Definition sample_video_result : Py.val :=
  Eval vm_compute in
    match (run_gee_task good_world with_video fresh).1 with
    | Py.Ok r => r
    | Py.Raise _ => Py.None_
    end.

(** ** Examples of the builtins *)

Example int_of_float_2020_7 : Py.int_of_float 2020.7%float = Py.Ok 2020.
Proof. reflexivity. Qed.

Example int_of_float_neg : Py.int_of_float (-3.5)%float = Py.Ok (-3).
Proof. reflexivity. Qed.

Example str_of_int_2020 : Py.str_of_int 2020 = "2020".
Proof. reflexivity. Qed.

Example bool_of_empty_list : Py.bool_ (Py.List []) = false.
Proof. reflexivity. Qed.

Example ordered_2024_2020 : ordered 2024 2020 = (2020, 2024).
Proof. reflexivity. Qed.

Example int_of_str_2024 : int_ good_world (Py.Str "2024") = Py.Ok 2024.
Proof. reflexivity. Qed.

Example int_of_none :
  int_ good_world Py.None_ =
  Py.Raise (Py.Exn "TypeError"
    "int() argument must be a string, a bytes-like object or a real number, not 'NoneType'").
Proof. reflexivity. Qed.

(** ** The monad *)

Lemma bind_Ok {A B} (m : M A) (k : A → M B) s a s1 :
  m s = (Py.Ok a, s1) → bind m k s = k a s1.
Proof. intros H. unfold bind. by rewrite H. Qed.

Lemma bind_Raise {A B} (m : M A) (k : A → M B) s e s1 :
  m s = (Py.Raise e, s1) → bind m k s = (Py.Raise e, s1).
Proof. intros H. unfold bind. by rewrite H. Qed.

Lemma bind_Ok_inv {A B} (m : M A) (k : A → M B) s b s' :
  bind m k s = (Py.Ok b, s') →
  ∃ a s1, m s = (Py.Ok a, s1) ∧ k a s1 = (Py.Ok b, s').
Proof.
  unfold bind. destruct (m s) as [[a|e] s1]; [eauto | discriminate].
Qed.

Lemma bind_ext {A B} (m : M A) (k1 k2 : A → M B) s :
  (∀ a s1, k1 a s1 = k2 a s1) → bind m k1 s = bind m k2 s.
Proof. intros H. unfold bind. destruct (m s) as [[a|e] s1]; auto. Qed.

Lemma bind_cong {A B} (m1 m2 : M A) (k : A → M B) s :
  m1 s = m2 s → bind m1 k s = bind m2 k s.
Proof. intros H. unfold bind. by rewrite H. Qed.

Lemma try_except_cong {A} (body1 body2 : M A) handler s :
  body1 s = body2 s → try_except body1 handler s = try_except body2 handler s.
Proof. intros H. unfold try_except. by rewrite H. Qed.

Lemma try_except_Ok {A} (body : M A) handler s a s1 :
  body s = (Py.Ok a, s1) → try_except body handler s = (Py.Ok a, s1).
Proof. intros H. unfold try_except. by rewrite H. Qed.

Lemma try_except_Raise {A} (body : M A) handler s e s1 :
  body s = (Py.Raise e, s1) → try_except body handler s = handler e s1.
Proof. intros H. unfold try_except. by rewrite H. Qed.

(** ** Rules of the judgement *)

Section Rules.

Context {A B : Type} (P : ee.call → Prop).

Lemma spec_ret (Q : A → Prop) a : Q a → spec P Q (ret a).
Proof.
  intros HQ s. exists []. simpl. rewrite app_nil_r.
  repeat split; [constructor|]. by intros ? [= <-].
Qed.

Lemma spec_raise (Q : A → Prop) e : spec P Q (raise e).
Proof.
  intros s. exists []. simpl. rewrite app_nil_r.
  repeat split; [constructor|]. discriminate.
Qed.

Lemma spec_lift (r : Py.result A) : spec P (λ a, r = Py.Ok a) (lift r).
Proof.
  intros s. exists []. simpl. rewrite app_nil_r.
  repeat split; [constructor|]. auto.
Qed.

Lemma spec_bind (Q : A → Prop) (R : B → Prop) (m : M A) (k : A → M B) :
  spec P Q m → (∀ a, Q a → spec P R (k a)) → spec P R (bind m k).
Proof.
  intros Hm Hk s. destruct (Hm s) as (cs1 & E1 & F1 & Q1).
  unfold bind. destruct (m s) as [[a|e] s1]; simpl in *.
  - destruct (Hk a (Q1 a eq_refl) s1) as (cs2 & E2 & F2 & Q2).
    exists (cs1 ++ cs2). rewrite E2, E1, app_assoc.
    repeat split; [by apply Forall_app|done].
  - exists cs1. repeat split; [done..|]. discriminate.
Qed.

Lemma spec_try (Q : A → Prop) (body : M A) handler :
  spec P Q body → (∀ e, spec P Q (handler e)) → spec P Q (try_except body handler).
Proof.
  intros Hb Hh s. destruct (Hb s) as (cs1 & E1 & F1 & Q1).
  unfold try_except. destruct (body s) as [[a|e] s1]; simpl in *.
  - exists cs1. repeat split; [done..|]. intros ? [= <-]. by apply Q1.
  - destruct (Hh e s1) as (cs2 & E2 & F2 & Q2).
    exists (cs1 ++ cs2). rewrite E2, E1, app_assoc.
    repeat split; [by apply Forall_app|done].
Qed.

Lemma spec_weaken (P' : ee.call → Prop) (Q Q' : A → Prop) (m : M A) :
  spec P' Q m → (∀ c, P' c → P c) → (∀ a, Q a → Q' a) → spec P Q' m.
Proof.
  intros Hm HP HQ s. destruct (Hm s) as (cs & E & F & Q1).
  exists cs. repeat split; [done| |by auto].
  eapply Forall_impl; eauto.
Qed.

End Rules.

Section LibraryRules.

Context (W : World) (P : ee.call → Prop).

Lemma spec_invoke c : P c → spec P (λ _, True) (invoke W c).
Proof.
  intros HP s. exists [c]. unfold invoke.
  destruct (raises W s c); simpl; repeat split; auto.
Qed.

Lemma spec_new {A} (inj : A → ee.obj) (a : A) :
  P (ee.New (inj a)) → spec P (eq a) (new W inj a).
Proof.
  intros HP. unfold new. eapply spec_bind; [by apply spec_invoke|].
  intros _ _. by apply spec_ret.
Qed.

Lemma spec_new_last {A} (Q : A → Prop) (inj : A → ee.obj) (a : A) :
  P (ee.New (inj a)) → Q a → spec P Q (new W inj a).
Proof.
  intros HP HQ. eapply spec_weaken; [by apply spec_new|done|by intros ? <-].
Qed.

Lemma spec_request c : P c → spec P (replied W c) (request W c).
Proof.
  intros HP s. exists [c]. unfold request.
  destruct (raises W s c) eqn:E; simpl; repeat split; auto; [discriminate|].
  intros ? [= <-]. by exists s.
Qed.

Lemma spec_request_last (Q : Py.val → Prop) c :
  P c → (∀ v, replied W c v → Q v) → spec P Q (request W c).
Proof.
  intros HP HQ. eapply spec_weaken; [by apply spec_request|done|done].
Qed.

Lemma spec_Initialize credentials :
  P (ee.Initialize credentials) → spec P (λ _, True) (Initialize W credentials).
Proof.
  intros HP s. exists [ee.Initialize credentials]. unfold Initialize.
  destruct (raises W s _); simpl; repeat split; auto.
Qed.

Lemma spec_data_initialized : spec P (λ _, True) data_initialized.
Proof.
  intros s. exists []. simpl. rewrite app_nil_r. repeat split; auto.
Qed.

End LibraryRules.

(** ** The calls of each function of [gee_client.py] *)

Create HintDb spec.

(** One step of a computation: the first call of a sequence, with what it
    returns, or its last expression. *)
Ltac spec_step :=
  lazymatch goal with
  | |- spec _ _ (bind (new _ _ _) _) =>
      eapply spec_bind; [apply spec_new | intros ? <-]
  | |- spec _ _ (bind (request _ _) _) =>
      eapply spec_bind; [apply spec_request | intros ? ?]
  | |- spec _ _ (bind (lift _) _) =>
      eapply spec_bind; [apply spec_lift | intros ? ?]
  | |- spec _ _ (bind _ _) =>
      eapply spec_bind; [solve [eauto with spec] | intros ? ?]
  | |- spec _ _ (ret _) => apply spec_ret
  | |- spec _ _ (new _ _ _) => apply spec_new_last
  | |- spec _ _ (request _ _) => apply spec_request_last; [| intros ? ?]
  end.

(** Every region in sight is [roi]. *)
Ltac regions_ok :=
  simpl;
  repeat match goal with
         | H : geometry_regions ?r = _ |- context [geometry_regions ?r] => rewrite H
         end;
  rewrite ?Forall_app; repeat split;
  first [ assumption | repeat constructor ].

(** A call of which every part is in sight is downstream of the region. *)
Ltac downstream_call :=
  split;
  [ regions_ok
  | reflexivity
  | reflexivity
  | first [ exact I | by (do 2 eexists; repeat split; eauto) ]
  | simpl; first [ discriminate | reflexivity | by intros _ ] ].

Section Calls.

Context (W : World) (region : ee.Geometry) (flag : bool).
Hypothesis region_is_resolved : geometry_regions region = [region].

Local Abbreviation P := (downstream W region flag).
Local Abbreviation over_region i := (Forall (eq region) (image_regions i)).

Ltac calls_ok := first [ downstream_call | regions_ok | done ].

Lemma yearly_dw_label_spec year :
  spec P (λ img, over_region img) (yearly_dw_label W year region).
Proof using region_is_resolved.
  unfold yearly_dw_label. repeat spec_step. all: calls_ok.
Qed.

Lemma yearly_s2_rgb_spec year :
  spec P (λ img, over_region img) (yearly_s2_rgb W year region).
Proof using region_is_resolved.
  unfold yearly_s2_rgb. repeat spec_step. all: calls_ok.
Qed.

Hint Resolve yearly_dw_label_spec yearly_s2_rgb_spec : spec.

Lemma make_change_layer_spec yA yB :
  spec P (λ img, over_region img) (make_change_layer W yA yB region).
Proof using region_is_resolved.
  unfold make_change_layer. repeat spec_step. all: calls_ok.
Qed.

Lemma image_thumbnail_url_spec image dims :
  over_region image →
  spec P (is_thumbnail_reply W) (image_thumbnail_url W image region dims).
Proof using region_is_resolved.
  intros Himage. unfold image_thumbnail_url. repeat spec_step. all: try calls_ok.
  unfold is_thumbnail_reply. eauto.
Qed.

Hint Resolve make_change_layer_spec image_thumbnail_url_spec : spec.

Lemma thumbnail_urls_spec l :
  roi l = region → spec P (five_urls W) (thumbnail_urls W l).
Proof using region_is_resolved.
  intros Hl. unfold thumbnail_urls. rewrite Hl. repeat spec_step. all: try calls_ok.
  unfold five_urls. do 5 eexists. split; [reflexivity|]. by repeat constructor.
Qed.

Lemma histogram_spec l :
  roi l = region → spec P (λ _, True) (histogram W l).
Proof using region_is_resolved.
  intros Hl. unfold histogram, histogram_request. rewrite Hl.
  apply spec_try; [|intros e; by apply spec_ret].
  repeat spec_step. all: calls_ok.
Qed.

(** The functions of the animated output make their calls only when the
    flag is set. *)
Section Animation.

Hypothesis flag_set : flag = true.

Lemma map_year_spec y :
  spec P (λ img, over_region img) (map_year W region y).
Proof using region_is_resolved flag_set.
  unfold map_year. repeat spec_step. all: calls_ok.
Qed.

Hint Resolve map_year_spec : spec.

Lemma build_vis_collection_range_spec y_start y_end :
  spec P (λ c, Forall (eq region) (collection_regions c))
    (build_vis_collection_range W y_start y_end region).
Proof using region_is_resolved flag_set.
  unfold build_vis_collection_range. repeat spec_step. all: calls_ok.
Qed.

Lemma collection_video_thumb_url_spec coll fps dims :
  Forall (eq region) (collection_regions coll) →
  spec P (λ _, True) (collection_video_thumb_url W coll region fps dims).
Proof using region_is_resolved flag_set.
  intros Hcoll. unfold collection_video_thumb_url. repeat spec_step. all: calls_ok.
Qed.

End Animation.

Lemma video_spec l :
  roi l = region → produce_video l = flag →
  spec P (λ v, flag = false → v = Py.None_) (video W l).
Proof using region_is_resolved.
  intros Hl Hflag. unfold video. rewrite Hl.
  destruct (produce_video l); symmetry in Hflag.
  - eapply spec_bind; [by apply build_vis_collection_range_spec|].
    intros coll Hcoll. apply spec_try.
    + eapply spec_weaken; [by apply collection_video_thumb_url_spec|done|].
      intros v _ Hf. by rewrite Hf in Hflag.
    + intros _. by apply spec_ret.
  - by apply spec_ret.
Qed.

End Calls.

(** ** The calls of a run *)

Section Run.

Context (W : World).

Lemma bounds_usable_total v : ∃ b, bounds_usable v = Py.Ok b.
Proof.
  unfold bounds_usable.
  destruct (Py.bool_ v); [|eauto].
  destruct v; simpl; eauto.
Qed.

Lemma selected_roi_is_resolved params :
  geometry_regions (selected_roi params) = [selected_roi params].
Proof.
  unfold selected_roi. by destruct (bounds_usable _) as [[]|].
Qed.

Lemma get_roi_from_params_selected params s :
  get_roi_from_params W params s = new W ee.OGeometry (selected_roi params) s.
Proof.
  unfold get_roi_from_params, selected_roi.
  destruct (bounds_usable_total (get params "bounds" Py.None_)) as [b ->].
  unfold bind, lift. by destruct b.
Qed.

Lemma initialize_ee_from_env_spec :
  spec (λ c, is_setup_call c = true) (λ _, True) (initialize_ee_from_env W).
Proof.
  unfold initialize_ee_from_env.
  eapply spec_bind; [apply spec_data_initialized|]. intros [] _.
  - by apply spec_ret.
  - destruct (environ W !! _) as [[|a key]|]; try apply spec_raise.
    repeat spec_step; try done. by apply spec_Initialize.
Qed.

(** The calls of [read_params]: those of the initialisation, then, unless
    an exception came first, the one call that resolves the region. *)
Lemma read_params_calls params s :
  ∃ before,
    Forall (λ c, is_setup_call c = true) before ∧
    ((ee.log (read_params W params s).2 = ee.log s ++ before ∧
      ∀ l, (read_params W params s).1 ≠ Py.Ok l) ∨
     ee.log (read_params W params s).2 =
       ee.log s ++ before ++ [ee.New (ee.OGeometry (selected_roi params))]) ∧
    ∀ l, (read_params W params s).1 = Py.Ok l → locals_of W params l.
Proof.
  destruct (initialize_ee_from_env_spec s) as (before & E0 & F0 & _).
  exists before. split; [done|].
  destruct (read_params W params s) as [r s'] eqn:E. simpl.
  unfold read_params in E. unfold bind at 1 in E.
  destruct (initialize_ee_from_env W s) as [[[]|e] s1]; simpl in E0;
    [|injection E as <- <-; split; [left|]; done].
  unfold bind at 1, lift at 1 in E.
  destruct (int_ W (get params "yearA" _)) as [a|e] eqn:Ea;
    [|injection E as <- <-; split; [left|]; done].
  unfold bind at 1, lift at 1 in E.
  destruct (int_ W (get params "yearB" _)) as [b|e] eqn:Eb;
    [|injection E as <- <-; split; [left|]; done].
  destruct (ordered a b) as [ya yb] eqn:Eo.
  unfold bind at 1 in E. rewrite get_roi_from_params_selected in E.
  unfold new, bind at 1, invoke in E.
  assert (ee.log (record (ee.New (ee.OGeometry (selected_roi params))) s1) =
          ee.log s ++ before ++ [ee.New (ee.OGeometry (selected_roi params))])
    as E1 by (simpl; by rewrite E0, app_assoc).
  destruct (raises W s1 _); simpl in E;
    [injection E as <- <-; split; [right|]; done|].
  unfold bind, lift, ret in E.
  destruct (int_ W (get params "thumb_dims" _)) as [d|e] eqn:Ed;
    [|injection E as <- <-; split; [right|]; done].
  destruct (int_ W (get params "video_fps" _)) as [f|e] eqn:Ef;
    injection E as <- <-; (split; [right; done|]); [|done].
  intros l [= <-]. split; simpl; eauto.
Qed.

(** The statements of [run_gee_task] that follow [read_params]. *)
Lemma after_read_params_spec l :
  geometry_regions (roi l) = [roi l] →
  spec (downstream W (roi l) (produce_video l))
    (λ r, ∃ urls freqA video_url,
        five_urls W urls ∧ (produce_video l = false → video_url = Py.None_) ∧
        r = result_dict l urls freqA video_url)
    (urls <- thumbnail_urls W l ;;
     freqA <- histogram W l ;;
     video_url <- video W l ;;
     ret (result_dict l urls freqA video_url)).
Proof.
  intros Hroi.
  eapply spec_bind; [by apply thumbnail_urls_spec|]. intros urls Hurls.
  eapply spec_bind; [by apply histogram_spec|]. intros freqA _.
  eapply spec_bind; [by apply video_spec|]. intros video_url Hvideo.
  apply spec_ret. by exists urls, freqA, video_url.
Qed.

(** The calls of a run, in order: those of the initialisation; then the
    resolution of the region the parameters select; then calls that are
    all downstream of that region. *)
Lemma run_gee_task_calls params s :
  ∃ before after,
    ee.log (run_gee_task W params s).2 = ee.log s ++ before ++ after ∧
    Forall (λ c, is_setup_call c = true) before ∧
    (after = [] ∨
     ∃ rest, after = ee.New (ee.OGeometry (selected_roi params)) :: rest ∧
             Forall (downstream W (selected_roi params) (video_flag params)) rest) ∧
    ∀ r, (run_gee_task W params s).1 = Py.Ok r →
      after ≠ [] ∧
      ∃ l urls freqA video_url,
        locals_of W params l ∧ five_urls W urls ∧
        (produce_video l = false → video_url = Py.None_) ∧
        r = result_dict l urls freqA video_url.
Proof.
  destruct (read_params_calls params s) as (before & F0 & Hlog & Hl).
  exists before.
  destruct (run_gee_task W params s) as [r s'] eqn:E. simpl.
  unfold run_gee_task in E. unfold bind at 1 in E.
  destruct (read_params W params s) as [[l|e] s1]; simpl in *.
  - destruct Hlog as [[_ Hne]|Hlog]; [by destruct (Hne l)|].
    destruct (Hl l eq_refl) as [Hy Hroi Hd Hflag Hf].
    assert (geometry_regions (roi l) = [roi l]) as Hr
      by (rewrite Hroi; apply selected_roi_is_resolved).
    destruct (after_read_params_spec l Hr s1) as (rest & E1 & F1 & Q1).
    rewrite E in E1, Q1. simpl in E1, Q1. rewrite Hroi, Hflag in F1.
    exists (ee.New (ee.OGeometry (selected_roi params)) :: rest).
    split; [by rewrite E1, Hlog, <-!app_assoc|].
    split; [done|]. split; [right; eauto|].
    intros r' ->. split; [done|].
    destruct (Q1 r' eq_refl) as (urls & freqA & video_url & ? & ? & ->).
    exists l, urls, freqA, video_url. repeat split; eauto.
  - injection E as <- <-. destruct Hlog as [[Hlog _]|Hlog].
    + exists []. rewrite app_nil_r. repeat split; auto; done.
    + exists [ee.New (ee.OGeometry (selected_roi params))].
      repeat split; eauto; done.
Qed.

End Run.

(** ** Runs that return *)

Create HintDb returns.

Section Returns.

Context (W : World).

Lemma returns_ret {A} (Q : A → Prop) a : Q a → returns Q (ret a).
Proof. intros HQ s. by exists a, s. Qed.

Lemma returns_bind {A B} (Q : A → Prop) (R : B → Prop) (m : M A) (k : A → M B) :
  returns Q m → (∀ a, Q a → returns R (k a)) → returns R (bind m k).
Proof.
  intros Hm Hk s. destruct (Hm s) as (a & s1 & E & HQ).
  destruct (Hk a HQ s1) as (b & s2 & E2 & HR).
  exists b, s2. split; [|done]. by erewrite bind_Ok.
Qed.

Lemma returns_weaken {A} (Q Q' : A → Prop) (m : M A) :
  returns Q m → (∀ a, Q a → Q' a) → returns Q' m.
Proof.
  intros Hm HQ s. destruct (Hm s) as (a & s1 & E & Ha). exists a, s1. auto.
Qed.

Lemma returns_lift {A} (Q : A → Prop) (r : Py.result A) a :
  r = Py.Ok a → Q a → returns Q (lift r).
Proof. intros -> HQ s. by exists a, s. Qed.

Lemma returns_try {A} (Q : A → Prop) (body : M A) handler :
  returns Q body → returns Q (try_except body handler).
Proof.
  intros Hb s. destruct (Hb s) as (a & s1 & E & HQ).
  exists a, s1. split; [|done]. by erewrite try_except_Ok.
Qed.

Hypothesis cooperates : cooperative W.

Lemma returns_new {A} (inj : A → ee.obj) (a : A) : returns (eq a) (new W inj a).
Proof using cooperates.
  intros s. exists a, (record (ee.New (inj a)) s). split; [|done].
  unfold new, bind, invoke, ret. by rewrite (nothing_raises W cooperates).
Qed.

Lemma returns_request c : returns (λ v, ∃ s, v = reply W s c) (request W c).
Proof using cooperates.
  intros s. exists (reply W s c), (record c s). split; [|by exists s].
  unfold request. by rewrite (nothing_raises W cooperates).
Qed.

Ltac returns_step :=
  lazymatch goal with
  | |- returns _ (bind (new _ _ _) _) =>
      eapply returns_bind; [by apply returns_new | intros ? <-]
  | |- returns _ (bind (request _ _) _) =>
      eapply returns_bind; [by apply returns_request | intros ? [? ->]]
  | |- returns _ (bind _ _) =>
      eapply returns_bind; [solve [eauto with returns] | intros ? ?]
  | |- returns _ (ret _) => by apply returns_ret
  | |- returns _ (new _ _ _) =>
      eapply returns_weaken; [by apply returns_new | done]
  | |- returns _ (request _ _) =>
      eapply returns_weaken; [by apply returns_request | done]
  end.

Lemma initialize_ee_from_env_returns : returns (λ _, True) (initialize_ee_from_env W).
Proof using cooperates.
  destruct (key_configured W cooperates) as (key_json & key_dict & Hkey & Hne & Hjson).
  intros s. unfold initialize_ee_from_env, bind at 1, data_initialized.
  destruct (ee.initialized s); [by exists tt, s|].
  rewrite Hkey. destruct key_json as [|a key]; [done|].
  rewrite Hjson. unfold bind at 1, lift.
  destruct (returns_new ee.OCredentials
              (ee.from_service_account_info key_dict
                 ["https://www.googleapis.com/auth/earthengine"]) s)
    as (credentials & s1 & E & <-).
  erewrite bind_Ok by exact E. unfold Initialize.
  rewrite (nothing_raises W cooperates). eauto.
Qed.

Lemma yearly_dw_label_returns year region :
  returns (λ _, True) (yearly_dw_label W year region).
Proof using cooperates. unfold yearly_dw_label. repeat returns_step. Qed.

Lemma yearly_s2_rgb_returns year region :
  returns (λ _, True) (yearly_s2_rgb W year region).
Proof using cooperates. unfold yearly_s2_rgb. repeat returns_step. Qed.

Hint Resolve yearly_dw_label_returns yearly_s2_rgb_returns : returns.

Lemma make_change_layer_returns yA yB region :
  returns (λ _, True) (make_change_layer W yA yB region).
Proof using cooperates. unfold make_change_layer. repeat returns_step. Qed.

Lemma image_thumbnail_url_returns image region dims :
  returns (λ _, True) (image_thumbnail_url W image region dims).
Proof using cooperates.
  unfold image_thumbnail_url. do 2 returns_step.
  destruct (bounds_have_coordinates W cooperates x region) as [coordinates E].
  eapply returns_bind; [exact (returns_lift (λ _, True) _ _ E I)|]. intros ? _.
  repeat returns_step.
Qed.

Lemma collection_video_thumb_url_returns coll region fps dims :
  returns (λ _, True) (collection_video_thumb_url W coll region fps dims).
Proof using cooperates.
  unfold collection_video_thumb_url. do 2 returns_step.
  destruct (bounds_have_coordinates W cooperates x region) as [coordinates E].
  eapply returns_bind; [exact (returns_lift (λ _, True) _ _ E I)|]. intros ? _.
  repeat returns_step.
Qed.

Lemma map_year_returns region y : returns (λ _, True) (map_year W region y).
Proof using cooperates. unfold map_year. repeat returns_step. Qed.

Hint Resolve map_year_returns : returns.

Lemma build_vis_collection_range_returns y_start y_end region :
  returns (λ _, True) (build_vis_collection_range W y_start y_end region).
Proof using cooperates.
  unfold build_vis_collection_range. repeat returns_step.
Qed.

Hint Resolve make_change_layer_returns image_thumbnail_url_returns
  collection_video_thumb_url_returns build_vis_collection_range_returns
  initialize_ee_from_env_returns : returns.

Lemma thumbnail_urls_returns l : returns (λ _, True) (thumbnail_urls W l).
Proof using cooperates. unfold thumbnail_urls. repeat returns_step. Qed.

Lemma histogram_returns l : returns (λ _, True) (histogram W l).
Proof using cooperates.
  unfold histogram, histogram_request. apply returns_try. repeat returns_step.
Qed.

Lemma video_returns_in_cooperative_world l : returns (λ _, True) (video W l).
Proof using cooperates.
  unfold video. destruct (produce_video l); [|by apply returns_ret].
  returns_step. by apply returns_try, collection_video_thumb_url_returns.
Qed.

Lemma get_roi_from_params_returns params :
  returns (λ _, True) (get_roi_from_params W params).
Proof using cooperates.
  intros s. rewrite get_roi_from_params_selected.
  destruct (returns_new ee.OGeometry (selected_roi params) s) as (g & s1 & E & _).
  eauto.
Qed.

Hint Resolve thumbnail_urls_returns histogram_returns
  video_returns_in_cooperative_world get_roi_from_params_returns : returns.

(** X14.  In a cooperative world, a request whose parameters [int]
    accepts is answered: [run_gee_task] returns, from any session. *)
Theorem run_gee_task_returns (params : gmap string Py.val) a b d f :
  int_ W (get params "yearA" (Py.Int 2020)) = Py.Ok a →
  int_ W (get params "yearB" (Py.Int 2024)) = Py.Ok b →
  int_ W (get params "thumb_dims" (Py.Int 768)) = Py.Ok d →
  int_ W (get params "video_fps" (Py.Int 1)) = Py.Ok f →
  returns (λ _, True) (run_gee_task W params).
Proof using cooperates.
  intros Ha Hb Hd Hf. unfold run_gee_task, read_params.
  apply (returns_bind (λ _, True)); [|intros l _; repeat returns_step].
  returns_step.
  eapply returns_bind; [exact (returns_lift (λ _, True) _ _ Ha I)|]. intros ? _.
  eapply returns_bind; [exact (returns_lift (λ _, True) _ _ Hb I)|]. intros ? _.
  destruct (ordered _ _). returns_step.
  eapply returns_bind; [exact (returns_lift (λ _, True) _ _ Hd I)|]. intros ? _.
  eapply returns_bind; [exact (returns_lift (λ _, True) _ _ Hf I)|]. intros ? _.
  by apply returns_ret.
Qed.

End Returns.

(** ** The properties of the specification *)

Section Properties.

Context (W : World).



Lemma setup_call_no_region c : is_setup_call c = true → call_regions c = [].
Proof. by destruct c as [[]| | | |]. Qed.

Lemma setup_call_no_animation c : is_setup_call c = true → is_animation_call c = false.
Proof. by destruct c as [[]| | | |]. Qed.


Lemma run_uses_selected_roi params s :
  run_uses_region W params s (selected_roi params).
Proof.
  destruct (run_gee_task_calls W params s) as (before & after & E & F0 & Hafter & Hr).
  exists (before ++ after). split; [done|]. split.
  - apply Forall_app. split.
    + eapply Forall_impl; [exact F0|]. intros c Hc; simpl in Hc.
      rewrite (setup_call_no_region c Hc). constructor.
    + destruct Hafter as [->|(rest & -> & F1)]; [constructor|].
      constructor.
      * simpl. rewrite selected_roi_is_resolved. by repeat constructor.
      * eapply Forall_impl; [exact F1|]. by intros c [].
  - intros r Hret. destruct (Hr r Hret) as [Hne _].
    destruct Hafter as [->|(rest & -> & _)]; [done|].
    apply elem_of_app. right. by left.
Qed.

(** C1.  For every parameter map whose [yearA] and [yearB] (or their
    defaults 2020 and 2024) [int] accepts, as [a] and [b], the result
    returned by [run_gee_task] carries [yearA <= yearB]: the two values
    swapped when [a > b], and [a] and [b] themselves otherwise. *)
Theorem result_years_are_ordered (params : gmap string Py.val) (a b : Z) s r :
  int_ W (get params "yearA" (Py.Int 2020)) = Py.Ok a →
  int_ W (get params "yearB" (Py.Int 2024)) = Py.Ok b →
  (run_gee_task W params s).1 = Py.Ok r →
  ∃ x y,
    Py.getitem r "yearA" = Py.Ok (Py.Int x) ∧
    Py.getitem r "yearB" = Py.Ok (Py.Int y) ∧
    x ≤ y ∧
    (a > b → x = b ∧ y = a) ∧
    (a ≤ b → x = a ∧ y = b).
Proof.
  intros Ha Hb Hr.
  destruct (run_gee_task_calls W params s) as (before & after & _ & _ & _ & Hret).
  destruct (Hret r Hr) as (_ & l & urls & freqA & video_url & Hl & _ & _ & ->).
  destruct Hl as [(a' & b' & Ha' & Hb' & Ho) _ _ _ _].
  rewrite Ha in Ha'. rewrite Hb in Hb'.
  injection Ha' as <-. injection Hb' as <-.
  exists (yearA l), (yearB l). do 2 (split; [reflexivity|]).
  unfold ordered in Ho. destruct (Z.gtb_spec a b); injection Ho as -> ->; lia.
Qed.

(** C9.  When the ["video"] parameter is absent or [False], a result that
    is returned has [video_url] set to [None], and the run, however it
    ends, makes none of the calls of the animated output: no list of years,
    no collection of frames, no request for an animated thumbnail. *)
Theorem no_video_unless_requested (params : gmap string Py.val) s :
  params !! "video" = None ∨ params !! "video" = Some (Py.Bool false) →
  (∀ r, (run_gee_task W params s).1 = Py.Ok r →
        Py.getitem r "video_url" = Py.Ok Py.None_) ∧
  ∃ cs, ee.log (run_gee_task W params s).2 = ee.log s ++ cs ∧
        Forall (λ c, is_animation_call c = false) cs.
Proof.
  intros Hvideo.
  assert (video_flag params = false) as Hflag.
  { unfold video_flag, get. by destruct Hvideo as [-> | ->]. }
  destruct (run_gee_task_calls W params s) as (before & after & E & F0 & Hafter & Hret).
  split.
  - intros r Hr.
    destruct (Hret r Hr) as (_ & l & urls & freqA & video_url & Hl & _ & Hnone & ->).
    destruct Hl as [_ _ _ Hf _]. fold (video_flag params) in Hf.
    rewrite Hflag in Hf. by rewrite (Hnone Hf).
  - exists (before ++ after). split; [done|].
    apply Forall_app. split.
    + eapply Forall_impl; [exact F0|]. apply setup_call_no_animation.
    + destruct Hafter as [->|(rest & -> & F1)]; [constructor|].
      constructor; [done|].
      eapply Forall_impl; [exact F1|]. intros c [_ _ _ _ Hc].
      rewrite Hflag in Hc. destruct (is_animation_call c); [by destruct Hc|done].
Qed.


Lemma selected_roi_absent (params : gmap string Py.val) :
  params !! "bounds" = None → selected_roi params = default_roi.
Proof. intros H. unfold selected_roi, get. by rewrite H. Qed.

Lemma selected_roi_well_formed (params : gmap string Py.val) v :
  params !! "bounds" = Some v → well_formed_bounds v = true →
  selected_roi params = ee.Rectangle v Py.None_ (Py.Bool false).
Proof.
  intros H Hv. unfold selected_roi, get. rewrite H.
  destruct v as [| | | | |[|w [|x [|y [|z [|]]]]]| |]; try done.
Qed.

Lemma malformed_bounds_unusable v :
  malformed_bounds v → bounds_usable v = Py.Ok false.
Proof.
  unfold malformed_bounds, bounds_usable. intros [H|[H|H]].
  - by rewrite H.
  - rewrite H. by destruct (Py.bool_ v).
  - destruct (Py.bool_ v); [|done].
    destruct v as [| | | | |l|l|]; simpl in *; try done.
    all: by destruct (Z.eqb_spec (Z.of_nat (length l)) 4) as [Heq|]; [rewrite Heq in H|].
Qed.

Lemma selected_roi_malformed (params : gmap string Py.val) v :
  params !! "bounds" = Some v → malformed_bounds v →
  selected_roi params = default_roi.
Proof.
  intros H Hv. unfold selected_roi, get. rewrite H.
  by rewrite (malformed_bounds_unusable v Hv).
Qed.

(** [read_params] looks at ["bounds"] only to select the region. *)
Lemma read_params_ext (params params' : gmap string Py.val) s :
  (∀ key, key ≠ "bounds" → params !! key = params' !! key) →
  selected_roi params = selected_roi params' →
  read_params W params s = read_params W params' s.
Proof.
  intros Hkeys Hroi. unfold read_params, get.
  rewrite !(Hkeys "yearA"), !(Hkeys "yearB"), !(Hkeys "thumb_dims"),
    !(Hkeys "video"), !(Hkeys "video_fps") by done.
  apply bind_ext. intros _ s1.
  apply bind_ext. intros a s2.
  apply bind_ext. intros b s3.
  destruct (ordered a b) as [ya yb].
  apply bind_cong.
  by rewrite !get_roi_from_params_selected, Hroi.
Qed.

(** C4.  When ["bounds"] is absent, the region [get_roi_from_params]
    resolves, and the only one the run refers to, is the rectangle built
    from [RECT_BOUNDS]; when ["bounds"] is a well-formed array of four
    numbers, it is the rectangle built from that array. *)
Theorem bounds_select_the_region (params : gmap string Py.val) s :
  (params !! "bounds" = None →
   get_roi_from_params W params s =
     new W ee.OGeometry (ee.Rectangle RECT_BOUNDS Py.None_ (Py.Bool false)) s ∧
   run_uses_region W params s (ee.Rectangle RECT_BOUNDS Py.None_ (Py.Bool false))) ∧
  (∀ v, params !! "bounds" = Some v → well_formed_bounds v = true →
   get_roi_from_params W params s =
     new W ee.OGeometry (ee.Rectangle v Py.None_ (Py.Bool false)) s ∧
   run_uses_region W params s (ee.Rectangle v Py.None_ (Py.Bool false))).
Proof.
  pose proof (get_roi_from_params_selected W params s) as Hget.
  pose proof (run_uses_selected_roi params s) as Hrun.
  split.
  - intros H. by rewrite (selected_roi_absent params H) in Hget, Hrun.
  - intros v H Hv. by rewrite (selected_roi_well_formed params v H Hv) in Hget, Hrun.
Qed.

(** C10.  A ["bounds"] value that is falsy, or not a list or tuple, or not
    of length 4 is ignored: the condition of [get_roi_from_params] is
    false without raising, the region resolved is the default one, and the
    run and the response of the route are those of the same request
    without ["bounds"]. *)
Theorem malformed_bounds_fall_back (params : gmap string Py.val) v s :
  params !! "bounds" = Some v →
  malformed_bounds v →
  bounds_usable v = Py.Ok false ∧
  get_roi_from_params W params s = new W ee.OGeometry default_roi s ∧
  (raises W s (ee.New (ee.OGeometry default_roi)) = None →
   (get_roi_from_params W params s).1 = Py.Ok default_roi) ∧
  run_gee_task W params s = run_gee_task W (delete "bounds" params) s ∧
  chat W params s = chat W (delete "bounds" params) s.
Proof.
  intros H Hv.
  assert (read_params W params s = read_params W (delete "bounds" params) s) as Hread.
  { apply read_params_ext.
    - intros key Hkey. by rewrite lookup_delete_ne.
    - rewrite (selected_roi_malformed params v H Hv).
      symmetry. apply selected_roi_absent, lookup_delete_eq. }
  assert (run_gee_task W params s = run_gee_task W (delete "bounds" params) s) as Hrun.
  { by apply bind_cong. }
  split; [by apply malformed_bounds_unusable|].
  rewrite get_roi_from_params_selected, (selected_roi_malformed params v H Hv).
  split; [done|]. split.
  - intros Hok. unfold new, bind, invoke, ret. by rewrite Hok.
  - split; [done|]. by apply try_except_cong, bind_cong.
Qed.

Lemma chat_Raise (data : gmap string Py.val) s e s' :
  run_gee_task W data s = (Py.Raise e, s') →
  chat W data s =
    (Py.Ok {| content := Py.Dict [("error", Py.Str (Py.exn_str e))];
              status_code := 500 |}, s').
Proof.
  intros H. unfold chat.
  erewrite try_except_Raise; [reflexivity|]. by apply bind_Raise.
Qed.

Lemma chat_Ok (data : gmap string Py.val) s r s' :
  run_gee_task W data s = (Py.Ok r, s') →
  chat W data s = (Py.Ok {| content := r; status_code := 200 |}, s').
Proof.
  intros H. unfold chat.
  erewrite try_except_Ok; [reflexivity|]. by erewrite bind_Ok.
Qed.

(** C6.  With the session not yet initialised and
    [GEE_SERVICE_ACCOUNT_KEY] unset or empty, [initialize_ee_from_env]
    raises, leaving the session as it was; so the startup hook raises, and
    the first request raises in [run_gee_task] and is answered with
    status 500 and that message. *)
Theorem missing_credentials_are_fatal (data : gmap string Py.val) s :
  ee.initialized s = false →
  environ W !! "GEE_SERVICE_ACCOUNT_KEY" = None ∨
  environ W !! "GEE_SERVICE_ACCOUNT_KEY" = Some "" →
  initialize_ee_from_env W s = (Py.Raise missing_key_error, s) ∧
  startup_event W s = (Py.Raise missing_key_error, s) ∧
  run_gee_task W data s = (Py.Raise missing_key_error, s) ∧
  chat W data s =
    (Py.Ok {| content := Py.Dict [("error", Py.Str (Py.exn_str missing_key_error))];
              status_code := 500 |}, s).
Proof.
  intros Hinit Hkey.
  assert (initialize_ee_from_env W s = (Py.Raise missing_key_error, s)) as Hraise.
  { unfold initialize_ee_from_env, bind, data_initialized. rewrite Hinit.
    by destruct Hkey as [-> | ->]. }
  assert (run_gee_task W data s = (Py.Raise missing_key_error, s)) as Hrun.
  { unfold run_gee_task. apply bind_Raise.
    unfold read_params. by apply bind_Raise. }
  do 3 (split; [done|]). by apply chat_Raise.
Qed.

(** C7.  [initialize_ee_from_env] is a guarded initialiser.  With the
    flag set it returns at once: whatever the environment and the world,
    it raises nothing and leaves the session, its log included, as it was.
    A call that returns leaves the flag set.  Hence calling it a second
    time changes nothing: twice in a row is the same as once. *)
Theorem initialize_is_idempotent s :
  (ee.initialized s = true → initialize_ee_from_env W s = (Py.Ok tt, s)) ∧
  (∀ s', initialize_ee_from_env W s = (Py.Ok tt, s') → ee.initialized s' = true) ∧
  (initialize_ee_from_env W ;; initialize_ee_from_env W) s = initialize_ee_from_env W s.
Proof.
  assert (∀ s0, ee.initialized s0 = true →
                initialize_ee_from_env W s0 = (Py.Ok tt, s0)) as Hset.
  { intros s0 H. unfold initialize_ee_from_env, bind, data_initialized. by rewrite H. }
  assert (∀ s', initialize_ee_from_env W s = (Py.Ok tt, s') →
                ee.initialized s' = true) as Hflag.
  { intros s' H. unfold initialize_ee_from_env in H.
    apply bind_Ok_inv in H as (already & s0 & H0 & H).
    injection H0 as <- <-.
    destruct (ee.initialized s) eqn:Hs; [by injection H as <-|].
    destruct (environ W !! _) as [[|a key]|]; try done.
    apply bind_Ok_inv in H as (key_dict & s1 & _ & H).
    apply bind_Ok_inv in H as (credentials & s2 & _ & H).
    unfold Initialize in H.
    destruct (raises W s2 _); [done|]. by injection H as <-. }
  split; [by apply Hset|]. split; [done|].
  destruct (initialize_ee_from_env W s) as [[[]|e] s'] eqn:E.
  - erewrite bind_Ok by exact E. by apply Hset, Hflag.
  - by apply bind_Raise.
Qed.


(** Once the collection of frames is built, or when no video is asked
    for, the statements of the animated output return. *)
Lemma video_returns l s :
  (produce_video l = true →
   ∃ coll s', build_vis_collection_range W (yearA l) (yearB l) (roi l) s
              = (Py.Ok coll, s')) →
  ∃ video_url s', video W l s = (Py.Ok video_url, s').
Proof.
  intros Hbuild. unfold video. destruct (produce_video l).
  - destruct (Hbuild eq_refl) as (coll & s1 & E).
    erewrite bind_Ok by exact E. unfold try_except.
    destruct (collection_video_thumb_url W coll (roi l) (video_fps l) (thumb_dims l) s1)
      as [[url|e] s2]; unfold ret; eauto.
  - unfold ret. eauto.
Qed.

(** The part of the error policy of the animated output that the code
    implements: a failure of the request for the URL gives [None]. *)
Lemma video_url_failure_is_null l s coll s1 e s2 :
  produce_video l = true →
  build_vis_collection_range W (yearA l) (yearB l) (roi l) s = (Py.Ok coll, s1) →
  collection_video_thumb_url W coll (roi l) (video_fps l) (thumb_dims l) s1
    = (Py.Raise e, s2) →
  video W l s = (Py.Ok Py.None_, s2).
Proof.
  intros Hflag Hbuild Hurl. unfold video. rewrite Hflag.
  erewrite bind_Ok by exact Hbuild. by erewrite try_except_Raise.
Qed.

(** A failure while the collection is built is not caught. *)
Lemma build_failure_propagates l s e s1 :
  produce_video l = true →
  build_vis_collection_range W (yearA l) (yearB l) (roi l) s = (Py.Raise e, s1) →
  video W l s = (Py.Raise e, s1).
Proof.
  intros Hflag Hbuild. unfold video. rewrite Hflag. by apply bind_Raise.
Qed.

(** The error policy of the histogram, as the code implements it.  When
    the histogram sub-request raises [e], the [try] statement completes
    with [{"error": str(e)}]; the statements that remain are those of the
    animated output, and once they return (no video asked for, or the
    collection of frames built) [run_gee_task] returns with that value
    under [histogram_yearA] and with the five thumbnail URLs it had
    obtained, and the route answers with status 200. *)
Lemma histogram_failure_is_absorbed (params : gmap string Py.val)
    s l s1 urls s2 e s3 :
  read_params W params s = (Py.Ok l, s1) →
  thumbnail_urls W l s1 = (Py.Ok urls, s2) →
  histogram_request W l s2 = (Py.Raise e, s3) →
  (produce_video l = true →
   ∃ coll s', build_vis_collection_range W (yearA l) (yearB l) (roi l) s3
              = (Py.Ok coll, s')) →
  histogram W l s2 = (Py.Ok (Py.Dict [("error", Py.Str (Py.exn_str e))]), s3) ∧
  ∃ r s4,
    run_gee_task W params s = (Py.Ok r, s4) ∧
    Py.getitem r "histogram_yearA" = Py.Ok (Py.Dict [("error", Py.Str (Py.exn_str e))]) ∧
    Py.getitem r "urls" = Py.Ok urls ∧
    five_urls W urls ∧
    chat W params s = (Py.Ok {| content := r; status_code := 200 |}, s4).
Proof.
  intros Hread Hurls Hhist Hbuild.
  assert (histogram W l s2 = (Py.Ok (Py.Dict [("error", Py.Str (Py.exn_str e))]), s3))
    as Hcaught by (unfold histogram; by erewrite try_except_Raise).
  split; [done|].
  destruct (video_returns l s3 Hbuild) as (video_url & s4 & Hvideo).
  set (freqA := Py.Dict [("error", Py.Str (Py.exn_str e))]) in *.
  assert (run_gee_task W params s = (Py.Ok (result_dict l urls freqA video_url), s4))
    as Hrun.
  { unfold run_gee_task.
    erewrite bind_Ok by exact Hread. erewrite bind_Ok by exact Hurls.
    erewrite bind_Ok by exact Hcaught. by erewrite bind_Ok by exact Hvideo. }
  exists (result_dict l urls freqA video_url), s4.
  split; [done|]. do 2 (split; [reflexivity|]). split.
  - destruct (read_params_calls W params s) as (_ & _ & _ & Hl).
    rewrite Hread in Hl. destruct (Hl l eq_refl) as [_ Hroi _ _ _].
    assert (geometry_regions (roi l) = [roi l]) as Hr
      by (rewrite Hroi; apply selected_roi_is_resolved).
    destruct (thumbnail_urls_spec W (roi l) false Hr l eq_refl s1) as (_ & _ & _ & Q).
    rewrite Hurls in Q. by apply Q.
  - by apply chat_Ok.
Qed.

End Properties.

(** ** What each function builds and asks for *)

Create HintDb asks.

Ltac asks_step :=
  lazymatch goal with
  | |- spec _ _ (bind (new _ _ _) _) =>
      eapply spec_bind; [apply spec_new; exact I | intros ? <-]
  | |- spec _ _ (bind (request _ _) _) =>
      eapply spec_bind; [apply spec_request | intros ? ?]
  | |- spec _ _ (bind (lift _) _) =>
      eapply spec_bind; [apply spec_lift | intros ? ?]
  | |- spec _ _ (bind _ _) =>
      eapply spec_bind; [solve [eauto with asks] | intros ? ?; try subst]
  | |- spec _ _ (ret _) => apply spec_ret
  | |- spec _ _ (new _ _ _) => apply spec_new_last; [exact I|]
  | |- spec _ _ (request _ _) => apply spec_request_last; [| intros ? ?]
  end.

Section Requests.

Context (W : World) (l : Locals).

Local Abbreviation P := (as_requested W l).

Lemma yearly_dw_label_builds year region :
  spec P (eq (dw_label_image year region)) (yearly_dw_label W year region).
Proof. unfold yearly_dw_label. repeat asks_step. reflexivity. Qed.

Lemma yearly_s2_rgb_builds year region :
  spec P (eq (s2_rgb_image year region)) (yearly_s2_rgb W year region).
Proof. unfold yearly_s2_rgb. repeat asks_step. reflexivity. Qed.

Hint Resolve yearly_dw_label_builds yearly_s2_rgb_builds : asks.

Lemma make_change_layer_builds yA yB region :
  spec P (eq (change_image yA yB region)) (make_change_layer W yA yB region).
Proof. unfold make_change_layer. repeat asks_step. reflexivity. Qed.

Lemma map_year_builds region y :
  spec P (eq (frame_image region y)) (map_year W region y).
Proof. unfold map_year. repeat asks_step. reflexivity. Qed.

Hint Resolve make_change_layer_builds map_year_builds : asks.

Lemma build_vis_collection_range_builds y_start y_end region :
  spec P (eq (vis_collection y_start y_end region))
    (build_vis_collection_range W y_start y_end region).
Proof. unfold build_vis_collection_range. repeat asks_step. reflexivity. Qed.

Lemma image_thumbnail_url_asks image :
  image ∈ thumbnail_images l →
  spec P (is_thumbnail_of W (roi l) (thumb_dims l) image)
    (image_thumbnail_url W image (roi l) (thumb_dims l)).
Proof.
  intros Himage. unfold image_thumbnail_url.
  asks_step. asks_step; [by left|]. asks_step.
  assert (coordinates_of_bounds W (roi l) a0) as Hc by (by exists a).
  asks_step; [by split; [|exists a0]|]. apply spec_ret. by exists a0.
Qed.

Lemma collection_video_thumb_url_asks :
  produce_video l = true →
  spec P (is_video_thumbnail_of W (roi l) (video_fps l) (thumb_dims l)
            (vis_collection (yearA l) (yearB l) (roi l)))
    (collection_video_thumb_url W (vis_collection (yearA l) (yearB l) (roi l))
       (roi l) (video_fps l) (thumb_dims l)).
Proof.
  intros Hflag. unfold collection_video_thumb_url.
  asks_step. asks_step; [by left|]. asks_step.
  assert (coordinates_of_bounds W (roi l) a0) as Hc by (by exists a).
  asks_step; [by repeat split; [..|exists a0]|]. apply spec_ret. by exists a0.
Qed.

Lemma thumbnail_urls_asks : spec P (urls_of W l) (thumbnail_urls W l).
Proof.
  unfold thumbnail_urls. do 7 asks_step.
  eapply spec_bind; [apply image_thumbnail_url_asks; set_solver|]. intros u1 H1.
  eapply spec_bind; [apply image_thumbnail_url_asks; set_solver|]. intros u2 H2.
  eapply spec_bind; [apply image_thumbnail_url_asks; set_solver|]. intros u3 H3.
  eapply spec_bind; [apply image_thumbnail_url_asks; set_solver|]. intros u4 H4.
  eapply spec_bind; [apply image_thumbnail_url_asks; set_solver|]. intros u5 H5.
  apply spec_ret. exists [u1; u2; u3; u4; u5]. split; [reflexivity|].
  by repeat constructor.
Qed.

Lemma histogram_asks : spec P (histogram_of W l) (histogram W l).
Proof.
  unfold histogram, histogram_request. apply spec_try.
  - do 3 asks_step. asks_step; [by right|]. by left.
  - intros e. apply spec_ret. right. by exists e.
Qed.

Lemma video_asks : spec P (video_url_of W l) (video W l).
Proof.
  unfold video. destruct (produce_video l) eqn:Hflag.
  - eapply spec_bind; [apply build_vis_collection_range_builds|]. intros coll <-.
    apply spec_try.
    + eapply spec_weaken; [by apply collection_video_thumb_url_asks|done|].
      intros v Hv. by right.
    + intros _. apply spec_ret. by left.
  - apply spec_ret. by left.
Qed.

(** The statements of [run_gee_task] that follow [read_params]. *)
Lemma after_read_params_asks :
  spec P
    (λ r, ∃ urls freqA video_url,
        urls_of W l urls ∧ histogram_of W l freqA ∧ video_url_of W l video_url ∧
        r = result_dict l urls freqA video_url)
    (urls <- thumbnail_urls W l ;;
     freqA <- histogram W l ;;
     video_url <- video W l ;;
     ret (result_dict l urls freqA video_url)).
Proof.
  eapply spec_bind; [apply thumbnail_urls_asks|]. intros urls Hurls.
  eapply spec_bind; [apply histogram_asks|]. intros freqA Hhist.
  eapply spec_bind; [apply video_asks|]. intros video_url Hvideo.
  apply spec_ret. by exists urls, freqA, video_url.
Qed.

End Requests.

(** ** Further properties of the handler and of the routes *)

Section Further.

Context (W : World).

Lemma bind_lift {A B} (r : Py.result A) (k : A → M B) s a :
  r = Py.Ok a → bind (lift r) k s = k a s.
Proof. by intros ->. Qed.

Lemma bind_lift_Raise {A B} (r : Py.result A) (k : A → M B) s e :
  r = Py.Raise e → bind (lift r) k s = (Py.Raise e, s).
Proof. by intros ->. Qed.

Lemma locals_of_unique (params : gmap string Py.val) l l' :
  locals_of W params l → locals_of W params l' → l = l'.
Proof.
  intros [(a & b & Ha & Hb & Ho) Hr Hd Hf Hv] [(a' & b' & Ha' & Hb' & Ho') Hr' Hd' Hf' Hv'].
  rewrite Ha in Ha'. rewrite Hb in Hb'. injection Ha' as <-. injection Hb' as <-.
  rewrite <-Ho in Ho'. rewrite Hd in Hd'.  rewrite Hv in Hv'.
  destruct l, l'; simpl in *. congruence.
Qed.

Lemma setup_call_as_requested l c : is_setup_call c = true → as_requested W l c.
Proof. by destruct c as [[]| | | |]. Qed.

(** The calls and the result of a run, in terms of the local variables
    the parameters determine. *)
Lemma run_gee_task_outcome (params : gmap string Py.val) s :
  ∃ cs,
    ee.log (run_gee_task W params s).2 = ee.log s ++ cs ∧
    (∀ l, locals_of W params l → Forall (as_requested W l) cs) ∧
    ∀ r, (run_gee_task W params s).1 = Py.Ok r →
      ∃ l urls freqA video_url,
        locals_of W params l ∧ urls_of W l urls ∧ histogram_of W l freqA ∧
        video_url_of W l video_url ∧ r = result_dict l urls freqA video_url.
Proof.
  destruct (read_params_calls W params s) as (before & F0 & Hlog & Hl).
  assert (∀ l, Forall (as_requested W l) before) as Hbefore.
  { intros l. eapply Forall_impl; [exact F0|]. apply setup_call_as_requested. }
  destruct (run_gee_task W params s) as [r s'] eqn:E. simpl.
  unfold run_gee_task in E. unfold bind at 1 in E.
  destruct (read_params W params s) as [[l0|e] s1]; simpl in *.
  - destruct Hlog as [[_ Hne]|Hlog]; [by destruct (Hne l0)|].
    destruct (after_read_params_asks W l0 s1) as (rest & E1 & F1 & Q1).
    rewrite E in E1, Q1. simpl in E1, Q1.
    exists (before ++ [ee.New (ee.OGeometry (selected_roi params))] ++ rest).
    split; [by rewrite E1, Hlog, <-!app_assoc|]. split.
    + intros l Hlocals.
      rewrite (locals_of_unique params l l0 Hlocals (Hl l0 eq_refl)).
      apply Forall_app. split; [done|]. by constructor.
    + intros r' ->.
      destruct (Q1 r' eq_refl) as (urls & freqA & video_url & ? & ? & ? & ->).
      exists l0, urls, freqA, video_url. split; [by apply Hl|]. done.
  - injection E as <- <-. destruct Hlog as [[Hlog _]|Hlog].
    + exists before. by repeat split.
    + exists (before ++ [ee.New (ee.OGeometry (selected_roi params))]).
      split; [done|]. split; [|done].
      intros l _. apply Forall_app. split; [done|]. by repeat constructor.
Qed.

(** X1.  Whenever [run_gee_task] returns, the value under ["urls"] has
    exactly the keys [dw_A_thumb], [dw_B_thumb], [s2_A_thumb],
    [s2_B_thumb] and [change_thumb], in this order, and the value under each
    key is what the service returned for the thumbnail of the intended
    image: the visualised labels of [yearA] and of [yearB], the true-colour
    composites of [yearA] and of [yearB], and the change layer between
    them, all over the bounds of the region at the requested dimension. *)
Theorem urls_are_thumbnails_of_the_intended_images (params : gmap string Py.val) s r :
  (run_gee_task W params s).1 = Py.Ok r →
  ∃ l us,
    locals_of W params l ∧
    Py.getitem r "urls"
      = Py.Ok (Py.Dict (zip ["dw_A_thumb"; "dw_B_thumb"; "s2_A_thumb"; "s2_B_thumb";
                             "change_thumb"] us)) ∧
    Forall2 (is_thumbnail_of W (roi l) (thumb_dims l)) (thumbnail_images l) us.
Proof.
  intros Hr. destruct (run_gee_task_outcome params s) as (cs & _ & _ & Hret).
  destruct (Hret r Hr) as (l & urls & freqA & video_url & Hl & (us & -> & Hus) & _ & _ & ->).
  by exists l, us.
Qed.

(** X2.  Whenever [run_gee_task] returns, the value under
    ["histogram_yearA"] is either the reply of the service to the frequency
    histogram of the label image of the result's [yearA] (the smaller of
    the two years), reduced over the region at scale 30 with at most 1e9
    pixels, passed on unchanged, or a dictionary with the single key
    ["error"]. *)
Theorem histogram_is_of_the_result_yearA (params : gmap string Py.val) s r :
  (run_gee_task W params s).1 = Py.Ok r →
  ∃ l freqA,
    locals_of W params l ∧
    Py.getitem r "yearA" = Py.Ok (Py.Int (yearA l)) ∧
    Py.getitem r "histogram_yearA" = Py.Ok freqA ∧
    (replied W
       (ee.GetInfo
          (ee.ODictionary
             (ee.reduceRegion (dw_label_image (ee.Lit (yearA l)) (roi l))
                ee.frequencyHistogram (roi l) 30 1e9)))
       freqA ∨
     ∃ e, freqA = Py.Dict [("error", Py.Str (Py.exn_str e))]).
Proof.
  intros Hr. destruct (run_gee_task_outcome params s) as (cs & _ & _ & Hret).
  destruct (Hret r Hr) as (l & urls & freqA & video_url & Hl & _ & Hf & _ & ->).
  by exists l, freqA.
Qed.

(** X3.  Whenever [run_gee_task] returns, the value under ["video_url"] is
    either [None] or, the video flag being set, what the service returned
    for the animated thumbnail of the collection of frames mapped over
    [ee.List.sequence(yearA, yearB)], with the years in ascending order,
    over the bounds of the region, at the requested frame rate and
    dimension. *)
Theorem video_url_is_of_the_year_range (params : gmap string Py.val) s r :
  (run_gee_task W params s).1 = Py.Ok r →
  ∃ l video_url,
    locals_of W params l ∧
    Py.getitem r "video_url" = Py.Ok video_url ∧
    (video_url = Py.None_ ∨
     (video_flag params = true ∧ yearA l ≤ yearB l ∧
      is_video_thumbnail_of W (roi l) (video_fps l) (thumb_dims l)
        (ee.FromList
           (ee.map (ee.sequence (yearA l) (yearB l)) (frame_image (roi l) ee.Element)))
        video_url)).
Proof.
  intros Hr. destruct (run_gee_task_outcome params s) as (cs & _ & _ & Hret).
  destruct (Hret r Hr) as (l & urls & freqA & video_url & Hl & _ & _ & Hv & ->).
  exists l, video_url. split; [done|]. split; [reflexivity|].
  destruct Hv as [->|[Hflag Hv]]; [by left|right].
  destruct Hl as [(a & b & _ & _ & Ho) _ _ Hf _].
  split; [by rewrite <-Hflag, Hf|]. split; [|done].
  unfold ordered in Ho. destruct (Z.gtb_spec a b); injection Ho as -> ->; lia.
Qed.


(** X5.  The route never lets an exception of the handler through: it
    answers every request body, in every world, with status 200 or with
    status 500 and a JSON object whose only key is ["error"]. *)
Theorem chat_always_answers (data : gmap string Py.val) s :
  ∃ response s',
    chat W data s = (Py.Ok response, s') ∧
    (status_code response = 200 ∨
     (status_code response = 500 ∧
      ∃ message, content response = Py.Dict [("error", Py.Str message)])).
Proof.
  destruct (run_gee_task W data s) as [[r|e] s'] eqn:E.
  - eexists _, s'. split; [by apply chat_Ok|]. by left.
  - eexists _, s'. split; [by apply chat_Raise|]. right. split; [reflexivity|].
    by eexists.
Qed.

(** X6.  When [int] rejects ["yearA"], or accepts it and rejects
    ["yearB"], [run_gee_task] raises that exception right after the
    initialisation, before any region is resolved or any image described,
    and the route answers with status 500 and its message. *)
Theorem uncoercible_year_fails_the_request (params : gmap string Py.val) s s1 e :
  initialize_ee_from_env W s = (Py.Ok tt, s1) →
  int_ W (get params "yearA" (Py.Int 2020)) = Py.Raise e ∨
  (∃ a, int_ W (get params "yearA" (Py.Int 2020)) = Py.Ok a ∧
        int_ W (get params "yearB" (Py.Int 2024)) = Py.Raise e) →
  run_gee_task W params s = (Py.Raise e, s1) ∧
  chat W params s =
    (Py.Ok {| content := Py.Dict [("error", Py.Str (Py.exn_str e))];
              status_code := 500 |}, s1).
Proof.
  intros Hinit Hyear.
  assert (run_gee_task W params s = (Py.Raise e, s1)) as Hrun.
  { unfold run_gee_task. apply bind_Raise. unfold read_params.
    erewrite bind_Ok by exact Hinit.
    destruct Hyear as [Ha|(a & Ha & Hb)].
    - by apply bind_lift_Raise.
    - erewrite bind_lift by exact Ha. by apply bind_lift_Raise. }
  split; [done|]. by apply chat_Raise.
Qed.

Lemma ordered_swap a b : ordered b a = ordered a b.
Proof.
  unfold ordered. destruct (Z.gtb_spec b a), (Z.gtb_spec a b); try done; try lia.
  by replace b with a by lia.
Qed.

(** X7.  The order in which the two years are given does not matter: the
    request with [yearA] and [yearB] exchanged has the same outcome, calls
    and response as the request itself. *)
Theorem year_order_is_irrelevant (params : gmap string Py.val) a b s :
  int_ W (get params "yearA" (Py.Int 2020)) = Py.Ok a →
  int_ W (get params "yearB" (Py.Int 2024)) = Py.Ok b →
  run_gee_task W (swap_years a b params) s = run_gee_task W params s ∧
  chat W (swap_years a b params) s = chat W params s.
Proof.
  intros Ha Hb.
  assert (read_params W (swap_years a b params) s = read_params W params s) as Hread.
  { unfold read_params. apply bind_ext. intros _ s1.
    assert (∀ d, get (swap_years a b params) "yearA" d = Py.Int b) as ->
      by (intros d; unfold get, swap_years; by rewrite lookup_insert_eq).
    assert (∀ d, get (swap_years a b params) "yearB" d = Py.Int a) as ->
      by (intros d; unfold get, swap_years; by rewrite lookup_insert_ne, lookup_insert_eq).
    erewrite (bind_lift (int_ W (Py.Int b))) by reflexivity.
    erewrite (bind_lift (int_ W (Py.Int a))) by reflexivity.
    erewrite (bind_lift (int_ W (get params "yearA" _))) by exact Ha.
    erewrite (bind_lift (int_ W (get params "yearB" _))) by exact Hb.
    rewrite ordered_swap. destruct (ordered a b) as [ya yb].
    assert (∀ key, key ≠ "yearA" → key ≠ "yearB" →
                   swap_years a b params !! key = params !! key) as Hkeys.
    { intros key H1 H2. unfold swap_years. by rewrite !lookup_insert_ne. }
    unfold get. rewrite !(Hkeys "thumb_dims"), !(Hkeys "video"), !(Hkeys "video_fps") by done.
    apply bind_cong. rewrite !get_roi_from_params_selected.
    unfold selected_roi, get. by rewrite (Hkeys "bounds"). }
  assert (run_gee_task W (swap_years a b params) s = run_gee_task W params s) as Hrun
    by (by apply bind_cong).
  split; [done|]. by apply try_except_cong, bind_cong.
Qed.

Lemma initialize_sets_flag s s' :
  initialize_ee_from_env W s = (Py.Ok tt, s') → ee.initialized s' = true.
Proof.
  intros H. unfold initialize_ee_from_env in H.
  apply bind_Ok_inv in H as (already & s0 & H0 & H).
  injection H0 as <- <-.
  destruct (ee.initialized s) eqn:Hs; [by injection H as <-|].
  destruct (environ W !! _) as [[|a key]|]; try done.
  apply bind_Ok_inv in H as (key_dict & s1 & _ & H).
  apply bind_Ok_inv in H as (credentials & s2 & _ & H).
  unfold Initialize in H.
  destruct (raises W s2 _); [done|]. by injection H as <-.
Qed.

Lemma get_roi_from_params_no_setup (params : gmap string Py.val) :
  spec (λ c, is_setup_call c = false) (λ g, geometry_regions g = [g])
    (get_roi_from_params W params).
Proof.
  unfold get_roi_from_params. spec_step.
  destruct a; by apply spec_new_last.
Qed.

(** X8.  Once the startup hook has returned, a request does not
    initialise again: whatever the environment then holds, its run reads
    no credentials and does not call [ee.Initialize]. *)
Theorem requests_after_startup_do_not_initialize (params : gmap string Py.val) s0 s :
  startup_event W s0 = (Py.Ok tt, s) →
  ∃ cs, ee.log (run_gee_task W params s).2 = ee.log s ++ cs ∧
        Forall (λ c, is_setup_call c = false) cs.
Proof.
  intros Hstart. apply initialize_sets_flag in Hstart.
  assert (initialize_ee_from_env W s = (Py.Ok tt, s)) as Hinit.
  { unfold initialize_ee_from_env, bind, data_initialized. by rewrite Hstart. }
  set (rest :=
    yearA <- lift (int_ W (get params "yearA" (Py.Int (List.nth 0 YEARS 0)))) ;;
    yearB <- lift (int_ W (get params "yearB" (Py.Int (List.last YEARS 0)))) ;;
    let '(yearA, yearB) := ordered yearA yearB in
    roi <- get_roi_from_params W params ;;
    thumb_dims <- lift (int_ W (get params "thumb_dims" (Py.Int 768))) ;;
    let produce_video := Py.bool_ (get params "video" (Py.Bool false)) in
    video_fps <- lift (int_ W (get params "video_fps" (Py.Int 1))) ;;
    ret {| yearA := yearA; yearB := yearB; roi := roi; thumb_dims := thumb_dims;
           produce_video := produce_video; video_fps := video_fps |}).
  assert (read_params W params s = rest s) as Hread
    by (unfold read_params; by erewrite bind_Ok by exact Hinit).
  assert (spec (λ c, is_setup_call c = false)
            (λ l, geometry_regions (roi l) = [roi l]) rest) as Hrest.
  { unfold rest. do 2 spec_step. destruct (ordered a a0).
    eapply spec_bind; [apply get_roi_from_params_no_setup|]. intros g Hg.
    do 2 spec_step. by apply spec_ret. }
  assert (spec (λ c, is_setup_call c = false) (λ _ : Py.val, True)
            (l <- rest ;;
             urls <- thumbnail_urls W l ;;
             freqA <- histogram W l ;;
             video_url <- video W l ;;
             ret (result_dict l urls freqA video_url))) as Hspec.
  { eapply spec_bind; [exact Hrest|]. intros l Hl.
    eapply spec_weaken; [by apply after_read_params_spec| |done].
    by intros c []. }
  destruct (Hspec s) as (cs & E & F & _).
  exists cs. split; [|done].
  unfold run_gee_task. by erewrite bind_cong by exact Hread.
Qed.

(** X9.  [get_roi_from_params] does not look at the elements of
    ["bounds"]: any list or tuple of length 4, whatever it holds, is handed
    to [ee.Geometry.Rectangle] as it is. *)
Theorem four_element_bounds_are_not_checked (params : gmap string Py.val) v s :
  params !! "bounds" = Some v →
  Py.is_list_or_tuple v = true →
  Py.len v = Py.Ok 4 →
  get_roi_from_params W params s
    = new W ee.OGeometry (ee.Rectangle v Py.None_ (Py.Bool false)) s.
Proof.
  intros H Hlist Hlen. rewrite get_roi_from_params_selected.
  unfold selected_roi, get. rewrite H.
  assert (bounds_usable v = Py.Ok true) as ->; [|done].
  unfold bounds_usable. rewrite Hlist, Hlen.
  destruct v as [| | | | |[|]|[|]|]; try done.
Qed.

(** X10.  With the session not yet initialised and a key in the
    environment that [json.loads] rejects, [initialize_ee_from_env] raises
    the exception of the parser without calling the library and without
    setting the flag; the request fails with status 500 and its message. *)
Theorem malformed_key_is_fatal (data : gmap string Py.val) s key_json e :
  ee.initialized s = false →
  environ W !! "GEE_SERVICE_ACCOUNT_KEY" = Some key_json →
  key_json ≠ "" →
  json_loads W key_json = Py.Raise e →
  initialize_ee_from_env W s = (Py.Raise e, s) ∧
  run_gee_task W data s = (Py.Raise e, s) ∧
  chat W data s =
    (Py.Ok {| content := Py.Dict [("error", Py.Str (Py.exn_str e))];
              status_code := 500 |}, s).
Proof.
  intros Hinit Hkey Hne Hjson.
  assert (initialize_ee_from_env W s = (Py.Raise e, s)) as Hraise.
  { unfold initialize_ee_from_env, bind at 1, data_initialized. rewrite Hinit, Hkey.
    destruct key_json as [|c key]; [done|]. by apply bind_lift_Raise. }
  assert (run_gee_task W data s = (Py.Raise e, s)) as Hrun.
  { unfold run_gee_task. apply bind_Raise. unfold read_params. by apply bind_Raise. }
  do 2 (split; [done|]). by apply chat_Raise.
Qed.

(** X11.  When the description the service returns for the bounds of the
    region cannot be subscripted with ['coordinates'],
    [image_thumbnail_url] raises the exception of the subscript after the
    two calls [region.bounds()] and [getInfo()]: no thumbnail is asked
    for. *)
Theorem thumbnail_needs_coordinates image region dims s e :
  let s1 := record (ee.New (ee.OGeometry (ee.bounds region))) s in
  let info := ee.GetInfo (ee.OGeometry (ee.bounds region)) in
  raises W s (ee.New (ee.OGeometry (ee.bounds region))) = None →
  raises W s1 info = None →
  Py.getitem (reply W s1 info) "coordinates" = Py.Raise e →
  image_thumbnail_url W image region dims s = (Py.Raise e, record info s1).
Proof.
  intros s1 info Hnew Hinfo Hitem. subst s1 info. unfold image_thumbnail_url.
  erewrite bind_Ok; [|unfold new, bind, invoke, ret; by rewrite Hnew].
  erewrite bind_Ok; [|unfold request; by rewrite Hinfo].
  by apply bind_lift_Raise.
Qed.

(** X12.  With the video flag unset, a histogram sub-request that raises
    [e] does not fail the request: [run_gee_task] returns with
    [{"error": str(e)}] under ["histogram_yearA"], [None] under
    ["video_url"] and the thumbnails it had obtained, and the route answers
    with status 200. *)
Theorem histogram_failure_without_video (params : gmap string Py.val)
    s l s1 urls s2 e s3 :
  read_params W params s = (Py.Ok l, s1) →
  thumbnail_urls W l s1 = (Py.Ok urls, s2) →
  histogram_request W l s2 = (Py.Raise e, s3) →
  produce_video l = false →
  let r := result_dict l urls (Py.Dict [("error", Py.Str (Py.exn_str e))]) Py.None_ in
  run_gee_task W params s = (Py.Ok r, s3) ∧
  chat W params s = (Py.Ok {| content := r; status_code := 200 |}, s3).
Proof.
  intros Hread Hurls Hhist Hflag r.
  assert (run_gee_task W params s = (Py.Ok r, s3)) as Hrun.
  { unfold run_gee_task.
    erewrite bind_Ok by exact Hread. erewrite bind_Ok by exact Hurls.
    erewrite bind_Ok; [|unfold histogram; by erewrite try_except_Raise].
    unfold video. by rewrite Hflag. }
  split; [done|]. by apply chat_Ok.
Qed.


End Further.

(** ** The properties at concrete requests *)



Example good_world_cooperates : cooperative good_world.
Proof.
  split.
  - exists "{}", (Py.Dict []). by repeat split.
  - done.
  - intros s g. by exists sample_coordinates.
Qed.

(** Years given as a string and as a float are coerced, then ordered. *)
Example loosely_typed_years_at_sample :
  ∃ r, (run_gee_task good_world years_loosely_typed fresh).1 = Py.Ok r ∧
       Py.getitem r "yearA" = Py.Ok (Py.Int 2020) ∧
       Py.getitem r "yearB" = Py.Ok (Py.Int 2024).
Proof. eexists. repeat split; vm_compute; reflexivity. Qed.

(** With the video flag set, a failure of the request for the URL itself
    is caught: the result is returned with a null [video_url]. *)
Example video_url_failure_at_sample :
  ∃ r, (run_gee_task (world_failing is_video_url_call) with_video fresh).1 = Py.Ok r ∧
       Py.getitem r "video_url" = Py.Ok Py.None_.
Proof. eexists. split; vm_compute; reflexivity. Qed.

(** The calls of a run that returns, in the world where every call
    succeeds: one resolution of the region, five thumbnail requests, one
    histogram request, one request for the animated thumbnail. *)
Example calls_at_sample :
  let cs := ee.log (run_gee_task good_world with_video fresh).2 in
  resolutions cs = 1%nat ∧
  length (List.filter (λ c, match c with ee.GetThumbURL _ _ => true | _ => false end) cs)
    = 5%nat ∧
  length (List.filter is_histogram_call cs) = 1%nat ∧
  length (List.filter is_video_url_call cs) = 1%nat.
Proof. vm_compute. done. Qed.

Lemma result_years_are_ordered_witness :
  ∃ x y,
    Py.getitem sample_result "yearA" = Py.Ok (Py.Int x) ∧
    Py.getitem sample_result "yearB" = Py.Ok (Py.Int y) ∧
    x ≤ y ∧
    (2024 > 2020 → x = 2020 ∧ y = 2024) ∧
    (2024 ≤ 2020 → x = 2024 ∧ y = 2020).
Proof.
  apply (result_years_are_ordered good_world years_2024_2020 2024 2020 fresh sample_result);
    vm_compute; reflexivity.
Defined.

Lemma no_video_unless_requested_witness :
  (∀ r, (run_gee_task good_world years_2024_2020 fresh).1 = Py.Ok r →
        Py.getitem r "video_url" = Py.Ok Py.None_) ∧
  ∃ cs, ee.log (run_gee_task good_world years_2024_2020 fresh).2 = ee.log fresh ++ cs ∧
        Forall (λ c, is_animation_call c = false) cs.
Proof.
  apply (no_video_unless_requested good_world years_2024_2020 fresh).
  left. vm_compute. reflexivity.
Defined.

Lemma bounds_select_the_region_witness :
  (get_roi_from_params good_world years_2024_2020 fresh =
     new good_world ee.OGeometry (ee.Rectangle RECT_BOUNDS Py.None_ (Py.Bool false)) fresh ∧
   run_uses_region good_world years_2024_2020 fresh
     (ee.Rectangle RECT_BOUNDS Py.None_ (Py.Bool false))) ∧
  (get_roi_from_params good_world with_bounds fresh =
     new good_world ee.OGeometry (ee.Rectangle sample_bounds Py.None_ (Py.Bool false)) fresh ∧
   run_uses_region good_world with_bounds fresh
     (ee.Rectangle sample_bounds Py.None_ (Py.Bool false))).
Proof.
  split.
  - apply (proj1 (bounds_select_the_region good_world years_2024_2020 fresh)).
    vm_compute. reflexivity.
  - apply (proj2 (bounds_select_the_region good_world with_bounds fresh) sample_bounds);
      vm_compute; reflexivity.
Defined.

Lemma malformed_bounds_fall_back_witness :
  bounds_usable three_numbers = Py.Ok false ∧
  get_roi_from_params good_world with_three_numbers fresh
    = new good_world ee.OGeometry default_roi fresh ∧
  (raises good_world fresh (ee.New (ee.OGeometry default_roi)) = None →
   (get_roi_from_params good_world with_three_numbers fresh).1 = Py.Ok default_roi) ∧
  run_gee_task good_world with_three_numbers fresh
    = run_gee_task good_world (delete "bounds" with_three_numbers) fresh ∧
  chat good_world with_three_numbers fresh
    = chat good_world (delete "bounds" with_three_numbers) fresh.
Proof.
  apply (malformed_bounds_fall_back good_world with_three_numbers three_numbers fresh).
  - vm_compute. reflexivity.
  - right. right. vm_compute. discriminate.
Defined.

Lemma missing_credentials_are_fatal_witness :
  initialize_ee_from_env world_without_key fresh = (Py.Raise missing_key_error, fresh) ∧
  startup_event world_without_key fresh = (Py.Raise missing_key_error, fresh) ∧
  run_gee_task world_without_key years_2024_2020 fresh
    = (Py.Raise missing_key_error, fresh) ∧
  chat world_without_key years_2024_2020 fresh =
    (Py.Ok {| content := Py.Dict [("error", Py.Str (Py.exn_str missing_key_error))];
              status_code := 500 |}, fresh).
Proof.
  apply (missing_credentials_are_fatal world_without_key years_2024_2020 fresh).
  - reflexivity.
  - left. vm_compute. reflexivity.
Defined.

Lemma initialize_is_idempotent_witness :
  initialize_ee_from_env world_without_key ready = (Py.Ok tt, ready).
Proof.
  apply (proj1 (initialize_is_idempotent world_without_key ready)). reflexivity.
Defined.


Example histogram_failure_at_sample :
  ∃ r s4,
    run_gee_task (world_failing is_histogram_call) with_video fresh = (Py.Ok r, s4) ∧
    Py.getitem r "histogram_yearA"
      = Py.Ok (Py.Dict [("error", Py.Str "Service unavailable.")]) ∧
    Py.getitem r "urls" = Py.Ok sample_urls ∧
    five_urls (world_failing is_histogram_call) sample_urls ∧
    chat (world_failing is_histogram_call) with_video fresh
      = (Py.Ok {| content := r; status_code := 200 |}, s4).
Proof.
  pose (W := world_failing is_histogram_call).
  pose (s1 := (read_params W with_video fresh).2).
  pose (s2 := (thumbnail_urls W sample_locals s1).2).
  pose (s3 := (histogram_request W sample_locals s2).2).
  apply (histogram_failure_is_absorbed W with_video fresh sample_locals s1
           sample_urls s2 service_error s3).
  - vm_compute. reflexivity.
  - vm_compute. reflexivity.
  - vm_compute. reflexivity.
  - intros _. do 2 eexists. vm_compute. reflexivity.
Qed.

(** Witnesses of the further properties. *)

Lemma urls_are_thumbnails_of_the_intended_images_witness :
  ∃ l us,
    locals_of good_world years_2024_2020 l ∧
    Py.getitem sample_result "urls"
      = Py.Ok (Py.Dict (zip ["dw_A_thumb"; "dw_B_thumb"; "s2_A_thumb"; "s2_B_thumb";
                             "change_thumb"] us)) ∧
    Forall2 (is_thumbnail_of good_world (roi l) (thumb_dims l)) (thumbnail_images l) us.
Proof.
  apply (urls_are_thumbnails_of_the_intended_images good_world years_2024_2020 fresh).
  vm_compute. reflexivity.
Defined.

Lemma histogram_is_of_the_result_yearA_witness :
  ∃ l freqA,
    locals_of good_world years_2024_2020 l ∧
    Py.getitem sample_result "yearA" = Py.Ok (Py.Int (yearA l)) ∧
    Py.getitem sample_result "histogram_yearA" = Py.Ok freqA ∧
    (replied good_world
       (ee.GetInfo
          (ee.ODictionary
             (ee.reduceRegion (dw_label_image (ee.Lit (yearA l)) (roi l))
                ee.frequencyHistogram (roi l) 30 1e9)))
       freqA ∨
     ∃ e, freqA = Py.Dict [("error", Py.Str (Py.exn_str e))]).
Proof.
  apply (histogram_is_of_the_result_yearA good_world years_2024_2020 fresh).
  vm_compute. reflexivity.
Defined.

Lemma video_url_is_of_the_year_range_witness :
  ∃ l video_url,
    locals_of good_world with_video l ∧
    Py.getitem sample_video_result "video_url" = Py.Ok video_url ∧
    (video_url = Py.None_ ∨
     (video_flag with_video = true ∧ yearA l ≤ yearB l ∧
      is_video_thumbnail_of good_world (roi l) (video_fps l) (thumb_dims l)
        (ee.FromList
           (ee.map (ee.sequence (yearA l) (yearB l)) (frame_image (roi l) ee.Element)))
        video_url)).
Proof.
  apply (video_url_is_of_the_year_range good_world with_video fresh).
  vm_compute. reflexivity.
Defined.


Lemma uncoercible_year_fails_the_request_witness :
  run_gee_task good_world year_is_null fresh
    = (Py.Raise null_year_error, (initialize_ee_from_env good_world fresh).2) ∧
  chat good_world year_is_null fresh =
    (Py.Ok {| content := Py.Dict [("error", Py.Str (Py.exn_str null_year_error))];
              status_code := 500 |},
     (initialize_ee_from_env good_world fresh).2).
Proof.
  apply (uncoercible_year_fails_the_request good_world year_is_null fresh).
  - vm_compute. reflexivity.
  - left. vm_compute. reflexivity.
Defined.

Lemma year_order_is_irrelevant_witness :
  run_gee_task good_world (swap_years 2024 2020 years_2024_2020) fresh
    = run_gee_task good_world years_2024_2020 fresh ∧
  chat good_world (swap_years 2024 2020 years_2024_2020) fresh
    = chat good_world years_2024_2020 fresh.
Proof.
  apply (year_order_is_irrelevant good_world years_2024_2020 2024 2020 fresh);
    vm_compute; reflexivity.
Defined.

Lemma requests_after_startup_do_not_initialize_witness :
  ∃ cs,
    ee.log (run_gee_task good_world years_2024_2020 (startup_event good_world fresh).2).2
      = ee.log (startup_event good_world fresh).2 ++ cs ∧
    Forall (λ c, is_setup_call c = false) cs.
Proof.
  apply (requests_after_startup_do_not_initialize good_world years_2024_2020 fresh).
  vm_compute. reflexivity.
Defined.

Lemma four_element_bounds_are_not_checked_witness :
  get_roi_from_params good_world with_four_strings fresh
    = new good_world ee.OGeometry (ee.Rectangle four_strings Py.None_ (Py.Bool false)) fresh.
Proof.
  apply (four_element_bounds_are_not_checked good_world with_four_strings four_strings fresh);
    vm_compute; reflexivity.
Defined.

Lemma malformed_key_is_fatal_witness :
  initialize_ee_from_env world_with_bad_key fresh = (Py.Raise bad_key_error, fresh) ∧
  run_gee_task world_with_bad_key years_2024_2020 fresh
    = (Py.Raise bad_key_error, fresh) ∧
  chat world_with_bad_key years_2024_2020 fresh =
    (Py.Ok {| content := Py.Dict [("error", Py.Str (Py.exn_str bad_key_error))];
              status_code := 500 |}, fresh).
Proof.
  apply (malformed_key_is_fatal world_with_bad_key years_2024_2020 fresh "not json").
  - reflexivity.
  - vm_compute. reflexivity.
  - discriminate.
  - reflexivity.
Defined.

Lemma thumbnail_needs_coordinates_witness :
  image_thumbnail_url world_without_coordinates
    (s2_rgb_image (ee.Lit 2020) default_roi) default_roi 768 fresh
  = (Py.Raise no_coordinates_error,
     record (ee.GetInfo (ee.OGeometry (ee.bounds default_roi)))
       (record (ee.New (ee.OGeometry (ee.bounds default_roi))) fresh)).
Proof.
  apply (thumbnail_needs_coordinates world_without_coordinates
           (s2_rgb_image (ee.Lit 2020) default_roi) default_roi 768 fresh);
    reflexivity.
Defined.

Lemma histogram_failure_without_video_witness :
  let W := world_failing is_histogram_call in
  let s1 := (read_params W years_2024_2020 fresh).2 in
  let s2 := (thumbnail_urls W sample_locals_without_video s1).2 in
  let s3 := (histogram_request W sample_locals_without_video s2).2 in
  let r := result_dict sample_locals_without_video sample_urls
             (Py.Dict [("error", Py.Str (Py.exn_str service_error))]) Py.None_ in
  run_gee_task W years_2024_2020 fresh = (Py.Ok r, s3) ∧
  chat W years_2024_2020 fresh = (Py.Ok {| content := r; status_code := 200 |}, s3).
Proof.
  intros W s1 s2 s3.
  apply (histogram_failure_without_video W years_2024_2020 fresh
           sample_locals_without_video s1 sample_urls s2 service_error s3);
    vm_compute; reflexivity.
Defined.


Lemma run_gee_task_returns_witness :
  ∃ r s', run_gee_task good_world years_2024_2020 fresh = (Py.Ok r, s') ∧ True.
Proof.
  apply (run_gee_task_returns good_world good_world_cooperates years_2024_2020
           2024 2020 768 1);
    vm_compute; reflexivity.
Defined.
